(** * Satellite Ground Track Tracker: a shallow embedding of [main.py]

    The page is one top-level Streamlit script.  It reads its widgets,
    builds a satellite (from typed text or from the public catalog),
    builds a time series, asks the propagation library for the point
    below the satellite at every instant, collects the answers into a
    four-column table and hands that table to the plot, the table view
    and the CSV download.

    The script is embedded as a function of its inputs: the widget
    values, the wall clock and the answers of the libraries it calls.
    Orbit propagation and floating point stay abstract (Section
    variables).  The parts of the libraries the properties depend on
    are written out: the calendar arithmetic of Python's [datetime],
    the text of a timestamp, numpy's [arange] on integers, the lookup
    of a UTC offset in a pytz zone, [str.replace], [str.lower] and the
    text that [DataFrame.to_csv] writes. *)

From Stdlib Require Import ZArith List String Ascii Bool Lia.
From Stdlib Require Import Permutation Sorted.
Import ListNotations.
Open Scope string_scope.
Open Scope list_scope.
Open Scope Z_scope.

(** ** Python's proleptic Gregorian calendar ([datetime.py]) *)

Module Calendar.

Definition b2z (b : bool) : Z := if b then 1 else 0.

(** [_DAYS_IN_MONTH], indexed from 1; [-1] is the placeholder at 0. *)
Definition DAYS_IN_MONTH (m : Z) : Z :=
  match m with
  | 1 => 31 | 2 => 28 | 3 => 31 | 4 => 30 | 5 => 31 | 6 => 30
  | 7 => 31 | 8 => 31 | 9 => 30 | 10 => 31 | 11 => 30 | 12 => 31
  | _ => -1
  end.

(** [_DAYS_BEFORE_MONTH], the running sums of the table above. *)
Definition DAYS_BEFORE_MONTH (m : Z) : Z :=
  match m with
  | 1 => 0 | 2 => 31 | 3 => 59 | 4 => 90 | 5 => 120 | 6 => 151
  | 7 => 181 | 8 => 212 | 9 => 243 | 10 => 273 | 11 => 304 | 12 => 334
  | _ => -1
  end.

Definition is_leap (y : Z) : bool :=
  (y mod 4 =? 0) && (negb (y mod 100 =? 0) || (y mod 400 =? 0)).

Definition days_before_year (y : Z) : Z :=
  let y := y - 1 in y * 365 + y / 4 - y / 100 + y / 400.

Definition days_in_month (y m : Z) : Z :=
  if (m =? 2) && is_leap y then 29 else DAYS_IN_MONTH m.

Definition days_before_month (y m : Z) : Z :=
  DAYS_BEFORE_MONTH m + b2z ((2 <? m) && is_leap y).

Definition ymd2ord (y m d : Z) : Z :=
  days_before_year y + days_before_month y m + d.

Definition DI400Y : Z := 146097.
Definition DI100Y : Z := 36524.
Definition DI4Y : Z := 1461.

(** The tail of [_ord2ymd]: month and day from the offset [n] into the
    year, by an estimate that is exact or one too large. *)
Definition month_day (leapyear : bool) (n : Z) : Z * Z :=
  let month := Z.shiftr (n + 50) 5 in
  let preceding := DAYS_BEFORE_MONTH month + b2z ((2 <? month) && leapyear) in
  if n <? preceding then
    let month := month - 1 in
    let preceding :=
      preceding - (DAYS_IN_MONTH month + b2z ((month =? 2) && leapyear)) in
    (month, n - preceding + 1)
  else (month, n - preceding + 1).

Definition ord2ymd (n : Z) : Z * Z * Z :=
  let n := n - 1 in
  let n400 := n / DI400Y in
  let n := n mod DI400Y in
  let y := n400 * 400 + 1 in
  let n100 := n / DI100Y in
  let n := n mod DI100Y in
  let n4 := n / DI4Y in
  let n := n mod DI4Y in
  let n1 := n / 365 in
  let n := n mod 365 in
  let y := y + n100 * 100 + n4 * 4 + n1 in
  if (n1 =? 4) || (n100 =? 4) then (y - 1, 12, 31)
  else
    let leapyear := (n1 =? 3) && (negb (n4 =? 24) || (n100 =? 3)) in
    let '(m, d) := month_day leapyear n in
    (y, m, d).

(** [date.weekday()]: Monday is 0, Sunday is 6. *)
Definition weekday (y m d : Z) : Z := (ymd2ord y m d + 6) mod 7.

End Calendar.

Import Calendar.

Infix "+++" := String.append (right associativity, at level 60).

(** ** Results of library calls *)

(** A Python exception, by its message. *)
Definition Exception := string.

Inductive result (A : Type) : Type :=
| Ok (a : A)
| Raise (e : Exception).
Arguments Ok {A} a.
Arguments Raise {A} e.

Definition rbind {A B} (r : result A) (f : A -> result B) : result B :=
  match r with
  | Ok a => f a
  | Raise e => Raise e
  end.

(** ** Decimal text, as [%d] and [%0wd] print it and as [\d] reads it *)

Module Text.

Definition digit (k : Z) : ascii := ascii_of_N (Z.to_N (48 + k)).

Definition digit_value (c : ascii) : option Z :=
  let v := Z.of_N (N_of_ascii c) in
  if (48 <=? v) && (v <=? 57) then Some (v - 48) else None.

Fixpoint digits_aux (fuel : nat) (n : Z) (acc : string) : string :=
  match fuel with
  | O => acc
  | S fuel' =>
      let acc' := String (digit (n mod 10)) acc in
      if n <? 10 then acc' else digits_aux fuel' (n / 10) acc'
  end.

(** The digits of a non-negative integer. *)
Definition decimal (n : Z) : string :=
  digits_aux (S (Z.to_nat (Z.log2 n))) n EmptyString.

Fixpoint zeros (k : nat) : string :=
  match k with
  | O => EmptyString
  | S k' => String "0" (zeros k')
  end.

Definition pad (w : nat) (s : string) : string :=
  zeros (w - String.length s) +++ s.

(** ["%0wd" % n]: the sign counts in the width. *)
Definition zfill (w : nat) (n : Z) : string :=
  if n <? 0 then String "-" (pad (w - 1) (decimal (- n))) else pad w (decimal n).

(** [str(n)] for an integer. *)
Definition str_int (n : Z) : string :=
  if n <? 0 then String "-" (decimal (- n)) else decimal n.

(** Reads exactly [w] decimal digits off the front of [s]. *)
Fixpoint take_digits (w : nat) (acc : Z) (s : string) : option (Z * string) :=
  match w with
  | O => Some (acc, s)
  | S w' =>
      match s with
      | EmptyString => None
      | String c rest =>
          match digit_value c with
          | Some v => take_digits w' (acc * 10 + v) rest
          | None => None
          end
      end
  end.

(** Reads the literal character [c] off the front of [s]. *)
Definition take_char (c : ascii) (s : string) : option string :=
  match s with
  | String c' rest => if Ascii.eqb c c' then Some rest else None
  | EmptyString => None
  end.

Fixpoint join (sep : string) (xs : list string) : string :=
  match xs with
  | [] => EmptyString
  | [x] => x
  | x :: rest => x +++ sep +++ join sep rest
  end.

(** [str.replace(old, new)] for one-character [old] and [new]. *)
Fixpoint replace (old new : ascii) (s : string) : string :=
  match s with
  | EmptyString => EmptyString
  | String c rest =>
      String (if Ascii.eqb c old then new else c) (replace old new rest)
  end.

(** [str.lower] on one code point below 256: the capitals A-Z and the
    Latin-1 capitals U+00C0..U+00DE (without the multiplication sign
    U+00D7) move up by 32; every other code point stays. *)
Definition lower_char (c : ascii) : ascii :=
  let v := N_of_ascii c in
  if ((65 <=? v) && (v <=? 90))%N
     || ((192 <=? v) && (v <=? 222) && negb (v =? 215))%N
  then ascii_of_N (v + 32) else c.

Fixpoint lower (s : string) : string :=
  match s with
  | EmptyString => EmptyString
  | String c rest => String (lower_char c) (lower rest)
  end.

Definition is_upper (c : ascii) : bool :=
  negb (Ascii.eqb (lower_char c) c).

Fixpoint string_forallb (p : ascii -> bool) (s : string) : bool :=
  match s with
  | EmptyString => true
  | String c rest => p c && string_forallb p rest
  end.

End Text.

Import Text.

(** ** [datetime] *)

Record datetime : Type := mk_datetime {
  year : Z;
  month : Z;
  day : Z;
  hour : Z;
  minute : Z;
  second : Z;
  microsecond : Z
}.

Definition MAXORDINAL : Z := 3652059.

Definition toordinal (dt : datetime) : Z := ymd2ord (year dt) (month dt) (day dt).

(** Seconds from midnight before ordinal day 0 to [dt], whole seconds. *)
Definition dt_seconds (dt : datetime) : Z :=
  toordinal dt * 86400 + hour dt * 3600 + minute dt * 60 + second dt.

(** What the [datetime] constructor checks. *)
Definition valid_datetime (dt : datetime) : bool :=
  (1 <=? year dt) && (year dt <=? 9999) &&
  (1 <=? month dt) && (month dt <=? 12) &&
  (1 <=? day dt) && (day dt <=? days_in_month (year dt) (month dt)) &&
  (0 <=? hour dt) && (hour dt <=? 23) &&
  (0 <=? minute dt) && (minute dt <=? 59) &&
  (0 <=? second dt) && (second dt <=? 59) &&
  (0 <=? microsecond dt) && (microsecond dt <=? 999999).

(** The calendar fields of a count of seconds, as [datetime.__add__]
    rebuilds them: [divmod] by the day, the hour and the minute, and
    [_ord2ymd] on the days. *)
Definition dt_of_seconds (total us : Z) : datetime :=
  let days := total / 86400 in
  let secs := total mod 86400 in
  let hh := secs / 3600 in
  let rem := secs mod 3600 in
  let mm := rem / 60 in
  let ss := rem mod 60 in
  let '(y, m, d) := ord2ymd days in
  mk_datetime y m d hh mm ss us.

(** A clock far enough from both ends of the calendar that a render,
    in any of the four zones, stays within four-digit years. *)
Definition clock_ok (dt : datetime) : bool :=
  valid_datetime dt && (1001 <=? year dt) && (year dt <=? 9998).

(** [datetime.__add__] with a [timedelta] of whole seconds: through the
    ordinal, [OverflowError] outside [1 .. MAXORDINAL]. *)
Definition dt_add (dt : datetime) (delta : Z) : result datetime :=
  let total := dt_seconds dt + delta in
  let days := total / 86400 in
  if (0 <? days) && (days <=? MAXORDINAL)
  then Ok (dt_of_seconds total (microsecond dt))
  else Raise "OverflowError: date value out of range".

(** Python compares datetimes field by field. *)
Definition dt_compare (a b : datetime) : comparison :=
  match year a ?= year b with
  | Eq =>
    match month a ?= month b with
    | Eq =>
      match day a ?= day b with
      | Eq =>
        match hour a ?= hour b with
        | Eq =>
          match minute a ?= minute b with
          | Eq =>
            match second a ?= second b with
            | Eq => microsecond a ?= microsecond b
            | c => c
            end
          | c => c
          end
        | c => c
        end
      | c => c
      end
    | c => c
    end
  | c => c
  end.

(** [strftime('%Y-%m-%d %H:%M:%S')].  The year is printed on four
    digits, which is what the C library does from year 1000 on. *)
Definition strftime (dt : datetime) : string :=
  zfill 4 (year dt) +++ "-" +++ zfill 2 (month dt) +++ "-" +++ zfill 2 (day dt)
  +++ " " +++ zfill 2 (hour dt) +++ ":" +++ zfill 2 (minute dt)
  +++ ":" +++ zfill 2 (second dt).

(** [datetime.strptime(s, "%Y-%m-%dT%H:%M:%SZ")] on fixed-width text:
    four digits of year, two digits for every other field, the literal
    separators, nothing after the [Z]; then the constructor's range
    checks.  Anything else is a [ValueError]. *)
Definition strptime (s : string) : result datetime :=
  let parsed :=
    match take_digits 4 0 s with
    | Some (y, s) =>
      match take_char "-" s with
      | Some s =>
        match take_digits 2 0 s with
        | Some (m, s) =>
          match take_char "-" s with
          | Some s =>
            match take_digits 2 0 s with
            | Some (d, s) =>
              match take_char "T" s with
              | Some s =>
                match take_digits 2 0 s with
                | Some (hh, s) =>
                  match take_char ":" s with
                  | Some s =>
                    match take_digits 2 0 s with
                    | Some (mm, s) =>
                      match take_char ":" s with
                      | Some s =>
                        match take_digits 2 0 s with
                        | Some (ss, s) =>
                          match take_char "Z" s with
                          | Some EmptyString =>
                              Some (mk_datetime y m d hh mm ss 0)
                          | _ => None
                          end
                        | None => None
                        end
                      | None => None
                      end
                    | None => None
                    end
                  | None => None
                  end
                | None => None
                end
              | None => None
              end
            | None => None
            end
          | None => None
          end
        | None => None
        end
      | None => None
      end
    | None => None
    end in
  match parsed with
  | Some dt =>
      if valid_datetime dt then Ok dt
      else Raise "ValueError: time data out of range"
  | None => Raise "ValueError: time data does not match format"
  end.

(** ** Skyfield's time scale *)

(** An instant of the UTC scale, in whole seconds counted like
    [dt_seconds].  The window of a render holds no leap second. *)
Definition Time : Type := Z.

(** [Timescale.utc(year, month, day, hour, minute, second)]: six
    positional parameters in this order.  [second] may be an array and
    may leave [0 .. 59]; the result has one instant per element. *)
Definition ts_utc (year month day hour minute : Z) (second : list Z) : list Time :=
  map (fun s => ymd2ord year month day * 86400 + hour * 3600 + minute * 60 + s)
      second.

(** The calendar fields of an instant, to the second. *)
Definition utc_tuple (t : Time) : datetime := dt_of_seconds t 0.

(** [Time.utc_iso()]: ['%04d-%02d-%02dT%02d:%02d:%02dZ']. *)
Definition utc_iso (t : Time) : string :=
  let dt := utc_tuple t in
  zfill 4 (year dt) +++ "-" +++ zfill 2 (month dt) +++ "-" +++ zfill 2 (day dt)
  +++ "T" +++ zfill 2 (hour dt) +++ ":" +++ zfill 2 (minute dt)
  +++ ":" +++ zfill 2 (second dt) +++ "Z".

(** ** numpy *)

(** [np.arange(start, stop, step)] on integers:
    [ceil((stop - start) / step)] elements, none when that is negative. *)
Definition arange (start stop step : Z) : result (list Z) :=
  if step =? 0 then Raise "ZeroDivisionError: division by zero"
  else
    let len := Z.to_nat (- ((start - stop) / step)) in
    Ok (map (fun i => start + Z.of_nat i * step) (seq 0 len)).

(** ** pytz *)

Inductive tzinfo : Type :=
| utc
| DstTzInfo (utc_transition_times : list datetime) (transition_info : list Z).

(** [bisect_right] on a sorted list: the first position whose element
    is greater than [x]. *)
Fixpoint bisect_right (a : list datetime) (x : datetime) : nat :=
  match a with
  | [] => O
  | y :: rest =>
      match dt_compare x y with
      | Lt => O
      | _ => S (bisect_right rest x)
      end
  end.

(** The offset [DstTzInfo.fromutc] adds: the entry at
    [max(0, bisect_right(transitions, dt) - 1)]. *)
Definition utcoffset_at (tz : tzinfo) (dt : datetime) : Z :=
  match tz with
  | utc => 0
  | DstTzInfo times info => nth (Nat.pred (bisect_right times dt)) info 0
  end.

(** [dt.astimezone(tz)] for [dt] carrying [pytz.utc]: the same object
    when [tz] is [pytz.utc], else [tz.fromutc]. *)
Definition astimezone (dt : datetime) (tz : tzinfo) : result datetime :=
  match tz with
  | utc => Ok dt
  | DstTzInfo _ _ => dt_add dt (utcoffset_at tz dt)
  end.

(** Day of the month of the [k]-th Sunday of month [m], and of its
    last Sunday. *)
Definition nth_sunday (y m k : Z) : Z :=
  1 + (6 - weekday y m 1) mod 7 + 7 * (k - 1).

Definition last_sunday (y m : Z) : Z :=
  let dim := days_in_month y m in
  dim - (weekday y m dim + 1) mod 7.

Definition rule_years : list Z := map (fun k => 2007 + Z.of_nat k) (seq 0 31).

(** The zone tables, for the years 2007 to 2037 of the rules in force:
    United States, second Sunday of March 07:00 UTC to first Sunday of
    November 06:00 UTC; United Kingdom, last Sunday of March 01:00 UTC
    to last Sunday of October 01:00 UTC; India, +05:30 since 1945. *)
Definition US_Eastern_table : list (datetime * Z) :=
  flat_map (fun y =>
    [ (mk_datetime y 3 (nth_sunday y 3 2) 7 0 0 0, -14400);
      (mk_datetime y 11 (nth_sunday y 11 1) 6 0 0 0, -18000) ]) rule_years.

Definition Europe_London_table : list (datetime * Z) :=
  flat_map (fun y =>
    [ (mk_datetime y 3 (last_sunday y 3) 1 0 0 0, 3600);
      (mk_datetime y 10 (last_sunday y 10) 1 0 0 0, 0) ]) rule_years.

Definition Asia_Kolkata_table : list (datetime * Z) :=
  [ (mk_datetime 1945 10 14 17 30 0 0, 19800) ].

Definition tz_of_table (t : list (datetime * Z)) : tzinfo :=
  DstTzInfo (map fst t) (map snd t).

(** [pytz.timezone(name)] on the four names of [timezone_list]. *)
Inductive zone : Type := UTC | Asia_Kolkata | US_Eastern | Europe_London.

Definition timezone_list : list zone := [UTC; Asia_Kolkata; US_Eastern; Europe_London].

Definition zone_name (z : zone) : string :=
  match z with
  | UTC => "UTC"
  | Asia_Kolkata => "Asia/Kolkata"
  | US_Eastern => "US/Eastern"
  | Europe_London => "Europe/London"
  end.

Definition timezone (z : zone) : tzinfo :=
  match z with
  | UTC => utc
  | Asia_Kolkata => tz_of_table Asia_Kolkata_table
  | US_Eastern => tz_of_table US_Eastern_table
  | Europe_London => tz_of_table Europe_London_table
  end.

(** ** Python dictionaries and [sorted] *)

Module Dict.

Fixpoint set {V : Type} (d : list (string * V)) (k : string) (v : V)
  : list (string * V) :=
  match d with
  | [] => [(k, v)]
  | (k', v') :: rest =>
      if String.eqb k k' then (k, v) :: rest else (k', v') :: set rest k v
  end.

Fixpoint get {V : Type} (d : list (string * V)) (k : string) : option V :=
  match d with
  | [] => None
  | (k', v') :: rest => if String.eqb k k' then Some v' else get rest k
  end.

Definition keys {V : Type} (d : list (string * V)) : list string := map fst d.

End Dict.

Fixpoint insert_sorted (x : string) (xs : list string) : list string :=
  match xs with
  | [] => [x]
  | y :: rest => if String.leb x y then x :: xs else y :: insert_sorted x rest
  end.

Definition sorted (xs : list string) : list string :=
  fold_right insert_sorted [] xs.

(** ** The text [csv.writer] emits *)

Module Csv.

Definition quotechar : ascii := "034".
Definition newline : ascii := "010".
Definition carriage_return : ascii := "013".
Definition comma : ascii := ",".

Definition special (c : ascii) : bool :=
  Ascii.eqb c comma || Ascii.eqb c quotechar
  || Ascii.eqb c newline || Ascii.eqb c carriage_return.

(** A field that goes out as it is. *)
Definition plain (s : string) : bool := string_forallb (fun c => negb (special c)) s.

Fixpoint double_quotes (s : string) : string :=
  match s with
  | EmptyString => EmptyString
  | String c rest =>
      if Ascii.eqb c quotechar
      then String quotechar (String quotechar (double_quotes rest))
      else String c (double_quotes rest)
  end.

(** [QUOTE_MINIMAL]. *)
Definition field (s : string) : string :=
  if plain s then s
  else String quotechar (double_quotes s +++ String quotechar EmptyString).

Definition line (fields : list string) : string :=
  join "," (map field fields) +++ String newline EmptyString.

Definition write (records : list (list string)) : string :=
  fold_right (fun r rest => line r +++ rest) EmptyString records.

(** A reader for text without quoted fields: records end at a newline,
    fields at a comma. *)
Fixpoint read_aux (s : string) (cur : string) (rec : list string)
  : list (list string) :=
  match s with
  | EmptyString =>
      match cur, rec with
      | EmptyString, [] => []
      | _, _ => [rev (cur :: rec)]
      end
  | String c rest =>
      if Ascii.eqb c newline then rev (cur :: rec) :: read_aux rest EmptyString []
      else if Ascii.eqb c comma then read_aux rest EmptyString (cur :: rec)
      else read_aux rest (cur +++ String c EmptyString) rec
  end.

Definition read (s : string) : list (list string) := read_aux s EmptyString [].

End Csv.

(** ** The page *)

(** What the sidebar widgets return in one render. *)
Record widgets : Type := mk_widgets {
  use_custom_tle : bool;
  tle_name : string;
  tle_line1 : string;
  tle_line2 : string;
  satellite_choice : nat;
  duration_minutes : Z;
  time_step : Z;
  selected_tz : zone
}.

(** [st.sidebar.slider(label, min, max, default, step)] returns a value
    of its grid. *)
Definition slider_value (lo hi step v : Z) : bool :=
  (lo <=? v) && (v <=? hi) && ((v - lo) mod step =? 0).

Definition sliders_ok (w : widgets) : bool :=
  slider_value 30 240 10 (duration_minutes w)
  && slider_value 10 120 10 (time_step w).

(** [st.sidebar.selectbox(label, options)]: the option picked, [None]
    when there is none. *)
Definition selectbox (options : list string) (choice : nat) : option string :=
  nth_error options choice.

(** The point below the satellite, [satellite.at(t).subpoint()]. *)
Record GeographicPosition (float : Type) : Type := mk_position {
  latitude_degrees : float;
  longitude_degrees : float;
  elevation_km : float
}.
Arguments mk_position {float} _ _ _.
Arguments latitude_degrees {float} _.
Arguments longitude_degrees {float} _.
Arguments elevation_km {float} _.

Definition tle_url : string := "https://celestrak.org/NORAD/elements/stations.txt".

Definition nl : string := String "010" EmptyString.

(** The texts of lines 15 to 18 and 118 to 121, without their
    pictographs. *)
Definition title_text : string :=
  nl +++ "# Satellite Ground Track Tracker" +++ nl
  +++ "Visualize the orbital trajectory of satellites in real-time using Two-Line Element (TLE) data. Perfect for space mission planning, education, or competitive hackathons."
  +++ nl.

Definition footer_text : string :=
  nl +++ "---" +++ nl
  +++ "Created for hackathons and space tech demos. Built with by combining real-time orbital mechanics (Skyfield), Python, and Streamlit."
  +++ nl.

(** ** Notions the properties are stated with *)

(** Validity of a calendar date, as [_ymd2ord] asserts it. *)
Definition valid_ymd (y m d : Z) : Prop :=
  1 <= m <= 12 /\ 1 <= d <= days_in_month y m.

(** Checking a decidable property on a segment of the integers. *)
Fixpoint all_from (fuel : nat) (k : Z) (P : Z -> bool) : bool :=
  match fuel with
  | O => true
  | S fuel' => P k && all_from fuel' (k + 1) P
  end.

Definition two_digits (n : Z) : string :=
  String (digit (n / 10)) (String (digit (n mod 10)) EmptyString).

(** Fields that name a real date and time of day. *)
Definition wellformed (dt : datetime) : Prop :=
  valid_ymd (year dt) (month dt) (day dt) /\
  0 <= hour dt <= 23 /\ 0 <= minute dt <= 59 /\ 0 <= second dt <= 59.

(** Python's order on datetimes: field by field. *)
Definition fields_lt (a b : datetime) : Prop :=
  year a < year b \/ (year a = year b /\
  (month a < month b \/ (month a = month b /\
  (day a < day b \/ (day a = day b /\
  (hour a < hour b \/ (hour a = hour b /\
  (minute a < minute b \/ (minute a = minute b /\
  second a < second b))))))))).

Definition fields_eq (a b : datetime) : Prop :=
  year a = year b /\ month a = month b /\ day a = day b /\
  hour a = hour b /\ minute a = minute b /\ second a = second b.

(** Fields that [strftime] prints on four and two digits. *)
Definition printable (dt : datetime) : Prop :=
  wellformed dt /\ 1 <= year dt <= 9999.

(** The first second of year [y]. *)
Definition first_second (y : Z) : Z := (days_before_year y + 1) * 86400.

Definition arange_len (stop step : Z) : nat := Z.to_nat (- ((0 - stop) / step)).

(** The order of [sorted] on texts. *)
Definition ascending (a b : string) : Prop := String.leb a b = true.

(** A small instance of the library interface, to run the page on
    concrete inputs: a satellite is its three lines of text, the
    constructor wants two lines of 69 characters that start with their
    line number, positions are whole numbers. *)
Module Sample.

Record Satellite : Type := mk_satellite {
  name : string;
  line1 : string;
  line2 : string
}.

Definition is_line (number : ascii) (s : string) : bool :=
  (String.length s =? 69)%nat &&
  match s with
  | String c _ => Ascii.eqb c number
  | EmptyString => false
  end.

Definition EarthSatellite (l1 l2 nm : string) : result Satellite :=
  if is_line "1" l1 && is_line "2" l2 then Ok (mk_satellite nm l1 l2)
  else Raise "Incorrect TLE line length or line number".

Definition iss_line1 : string :=
  "1 25544U 98067A   21275.51847222  .00002182  00000-0  45426-4 0  9992".
Definition iss_line2 : string :=
  "2 25544  51.6442 200.0463 0003707 133.5601  38.8325 15.48815429299184".

Definition iss : Satellite := mk_satellite "CUSTOM_SAT" iss_line1 iss_line2.

Definition catalog : list Satellite :=
  [ mk_satellite "ISS (ZARYA)" iss_line1 iss_line2;
    mk_satellite "CSS (TIANHE)" iss_line1 iss_line2 ].

Definition online (url : string) : result (list Satellite) := Ok catalog.

Definition offline (url : string) : result (list Satellite) :=
  Raise "OSError: cannot download the catalog".

(** A catalog file without a satellite, and one that lists a name twice. *)
Definition empty (url : string) : result (list Satellite) := Ok [].

Definition twice (url : string) : result (list Satellite) :=
  Ok [ mk_satellite "ISS (ZARYA)" iss_line1 iss_line2;
       mk_satellite "CSS (TIANHE)" iss_line1 iss_line2;
       mk_satellite "ISS (ZARYA)" iss_line1 iss_line1 ].

Definition at_subpoint (s : Satellite) (t : Time) : GeographicPosition Z :=
  mk_position (t mod 52) (t mod 180) (408 + t mod 7).

Definition float_repr (x : Z) : string := str_int x.

Definition custom_widgets : widgets :=
  mk_widgets true "CUSTOM_SAT" iss_line1 iss_line2 0 30 120 UTC.

Definition broken_widgets : widgets :=
  mk_widgets true "CUSTOM_SAT" "not a TLE line" iss_line2 0 90 30 UTC.

Definition catalog_widgets : widgets :=
  mk_widgets false "CUSTOM_SAT" iss_line1 iss_line2 1 30 120 Asia_Kolkata.

(** A render that spans the end of daylight saving time in the United
    States, 2026-11-01 06:00 UTC. *)
Definition eastern_widgets : widgets :=
  mk_widgets true "CUSTOM_SAT" iss_line1 iss_line2 0 30 120 US_Eastern.

Definition london_widgets : widgets :=
  mk_widgets true "CUSTOM_SAT" iss_line1 iss_line2 0 30 120 Europe_London.

Definition noon : datetime := mk_datetime 2026 11 4 12 0 41 250000.

Definition fall_back : datetime := mk_datetime 2026 11 1 5 45 12 0.

End Sample.

Section App.

Variable Satellite : Type.
Variable float : Type.

(** [EarthSatellite(line1, line2, name)]. *)
Variable EarthSatellite : string -> string -> string -> result Satellite.

(** [load.tle_file(url)]. *)
Variable load_tle_file : string -> result (list Satellite).

(** [sat.name]. *)
Variable sat_name : Satellite -> string.

(** [satellite.at(t).subpoint()]. *)
Variable at_subpoint : Satellite -> Time -> GeographicPosition float.

(** The text [to_csv] writes for a float cell. *)
Variable float_repr : float -> string.

(** *** pandas *)

Inductive column : Type :=
| StrColumn (values : list string)
| FloatColumn (values : list float).

Definition DataFrame : Type := list (string * column).

Definition column_length (c : column) : nat :=
  match c with
  | StrColumn v => List.length v
  | FloatColumn v => List.length v
  end.

(** [pd.DataFrame(dict)] wants columns of one length. *)
Definition pd_DataFrame (data : list (string * column)) : result DataFrame :=
  match data with
  | [] => Ok data
  | (_, c) :: rest =>
      if forallb (fun kc => Nat.eqb (column_length (snd kc)) (column_length c)) rest
      then Ok data
      else Raise "ValueError: All arrays must be of the same length"
  end.

Definition columns (df : DataFrame) : list string := map fst df.

Definition nrows (df : DataFrame) : nat :=
  match df with
  | [] => O
  | (_, c) :: _ => column_length c
  end.

Definition cell_text (c : column) (i : nat) : string :=
  match c with
  | StrColumn v => nth i v EmptyString
  | FloatColumn v =>
      match nth_error v i with
      | Some x => float_repr x
      | None => EmptyString
      end
  end.

Definition row_text (df : DataFrame) (i : nat) : list string :=
  map (fun kc => cell_text (snd kc) i) df.

(** [df.to_csv(index=False)]: the header, then one record per row. *)
Definition to_csv (df : DataFrame) : string :=
  Csv.write (columns df :: map (row_text df) (seq 0 (nrows df))).

(** [str.encode('utf-8')]: the text holds code points below 128 only, so
    the bytes are the characters. *)
Definition encode_utf8 (s : string) : string := s.

(** *** plotly *)

Record figure : Type := mk_figure {
  fig_data : DataFrame;
  fig_lat : string;
  fig_lon : string;
  fig_color : string;
  fig_hover_data : list string;
  fig_projection : string;
  fig_title : string;
  fig_marker_size : Z;
  fig_height : Z
}.

Definition scatter_geo (df : DataFrame) (lat lon color : string)
    (hover_data : list string) (projection title : string) : figure :=
  mk_figure df lat lon color hover_data projection title 0 0.

Definition update_traces (fig : figure) (size : Z) : figure :=
  mk_figure (fig_data fig) (fig_lat fig) (fig_lon fig) (fig_color fig)
    (fig_hover_data fig) (fig_projection fig) (fig_title fig) size (fig_height fig).

Definition update_layout (fig : figure) (height : Z) : figure :=
  mk_figure (fig_data fig) (fig_lat fig) (fig_lon fig) (fig_color fig)
    (fig_hover_data fig) (fig_projection fig) (fig_title fig)
    (fig_marker_size fig) height.

(** *** Streamlit: what a render shows, and how it ends *)

Inductive event : Type :=
| SetPageConfig (page_title layout : string)
| Markdown (body : string)
| SidebarHeader (body : string)
| SidebarMarkdown (body : string)
| SidebarError (body : string)
| Spinner (text : string)
| Fetch (url : string)
| Subheader (body : string)
| PlotlyChart (fig : figure)
| Dataframe (data : DataFrame)
| DownloadButton (label data file_name mime : string).

Inductive outcome (A : Type) : Type :=
| Done (a : A)
| Stopped
| Crashed (e : Exception).
Arguments Done {A} a.
Arguments Stopped {A}.
Arguments Crashed {A} e.

Definition Page (A : Type) : Type := list event * outcome A.

Definition ret {A} (a : A) : Page A := ([], Done a).

Definition bind {A B} (m : Page A) (k : A -> Page B) : Page B :=
  match m with
  | (es, Done a) => let (es', o) := k a in (es ++ es', o)
  | (es, Stopped) => (es, Stopped)
  | (es, Crashed e) => (es, Crashed e)
  end.

Definition emit (e : event) : Page unit := ([e], Done tt).

(** [st.stop()]. *)
Definition stop {A} : Page A := ([], Stopped).

(** An exception nothing catches. *)
Definition lift {A} (r : result A) : Page A :=
  match r with
  | Ok a => ret a
  | Raise e => ([], Crashed e)
  end.

Notation "x <- m ;; k" := (bind m (fun x => k))
  (at level 61, m at next level, right associativity).
Notation "m ;; k" := (bind m (fun _ => k))
  (at level 61, right associativity).

(** *** The script *)

(** Lines 26 to 44: the satellite and its name. *)
Definition pick_satellite (w : widgets) : Page (Satellite * string) :=
  if use_custom_tle w then
    emit (SidebarMarkdown "Enter your custom Two-Line Element (TLE) data:") ;;
    match EarthSatellite (tle_line1 w) (tle_line2 w) (tle_name w) with
    | Ok satellite => ret (satellite, tle_name w)
    | Raise e => emit (SidebarError ("Error parsing TLE: " +++ e)) ;; stop
    end
  else
    emit (Spinner "Fetching latest satellite data...") ;;
    emit (Fetch tle_url) ;;
    tle_lines <- lift (load_tle_file tle_url) ;;
    let by_name :=
      fold_left (fun d sat => Dict.set d (sat_name sat) sat) tle_lines [] in
    let satellite_names := sorted (Dict.keys by_name) in
    match selectbox satellite_names (satellite_choice w) with
    | Some selected_satellite_name =>
        match Dict.get by_name selected_satellite_name with
        | Some satellite => ret (satellite, selected_satellite_name)
        | None => lift (Raise "KeyError")
        end
    | None => lift (Raise "KeyError: None")
    end.

(** Lines 41 and 42, as functions of the catalog that was loaded. *)
Definition by_name (tle_lines : list Satellite) : list (string * Satellite) :=
  fold_left (fun d sat => Dict.set d (sat_name sat) sat) tle_lines [].

Definition satellite_names (tle_lines : list Satellite) : list string :=
  sorted (Dict.keys (by_name tle_lines)).

(** Lines 58 to 60: the offsets and the instants. *)
Definition minutes (w : widgets) : result (list Z) :=
  arange 0 (duration_minutes w * 60) (time_step w).

Definition observation_times (w : widgets) (start_time : datetime)
  : result (list Time) :=
  rbind (minutes w) (fun minutes =>
  Ok (ts_utc (year start_time) (month start_time) (day start_time)
             (hour start_time) (minute start_time) minutes)).

(** Line 68.  [replace(tzinfo=pytz.utc)] changes no field. *)
Definition local_time (tz : tzinfo) (t : Time) : result datetime :=
  rbind (strptime (utc_iso t)) (fun dt => astimezone dt tz).

(** The four lists of the loop of lines 62 to 69. *)
Record track : Type := mk_track {
  lats : list float;
  lons : list float;
  altitudes : list float;
  timestamps : list string
}.

Definition observe_step (satellite : Satellite) (tz : tzinfo)
    (acc : result track) (t : Time) : result track :=
  rbind acc (fun a =>
  let subpoint := at_subpoint satellite t in
  rbind (local_time tz t) (fun local_time =>
  Ok (mk_track (lats a ++ [latitude_degrees subpoint])
               (lons a ++ [longitude_degrees subpoint])
               (altitudes a ++ [elevation_km subpoint])
               (timestamps a ++ [strftime local_time])))).

Definition observe (satellite : Satellite) (tz : tzinfo) (times : list Time)
  : result track :=
  fold_left (observe_step satellite tz) times (Ok (mk_track [] [] [] [])).

(** Lines 72 to 77. *)
Definition df_of_track (k : track) : result DataFrame :=
  pd_DataFrame
    [ ("Timestamp", StrColumn (timestamps k));
      ("Latitude", FloatColumn (lats k));
      ("Longitude", FloatColumn (lons k));
      ("Altitude (km)", FloatColumn (altitudes k)) ].

(** Lines 47 to 77: the table of a render. *)
Definition df (w : widgets) (start_time : datetime) (satellite : Satellite)
  : result DataFrame :=
  let tz := timezone (selected_tz w) in
  rbind (observation_times w start_time) (fun observation_times =>
  rbind (observe satellite tz observation_times) df_of_track).

(** Line 113. *)
Definition file_name (selected_satellite_name : string) : string :=
  lower (replace " " "_" selected_satellite_name) +++ "_ground_track.csv".

Definition info (selected_satellite_name : string) (start_time : datetime)
    (w : widgets) : string :=
  nl +++ "### Current Simulation Info:" +++ nl
  +++ "- **Satellite:** " +++ selected_satellite_name +++ nl
  +++ "- **Start Time (UTC):** " +++ strftime start_time +++ nl
  +++ "- **Duration:** " +++ str_int (duration_minutes w) +++ " minutes" +++ nl
  +++ "- **Time Step:** " +++ str_int (time_step w) +++ " seconds" +++ nl.

(** The whole render.  The pictographs that decorate the texts are left
    out; the widgets are read from [w], the clock from [start_time]. *)
Definition main (w : widgets) (start_time : datetime) : Page unit :=
  emit (SetPageConfig "Satellite Ground Track Tracker" "wide") ;;
  emit (Markdown title_text) ;;
  emit (SidebarHeader "Satellite Simulation Settings") ;;
  picked <- pick_satellite w ;;
  let satellite := fst picked in
  let selected_satellite_name := snd picked in
  df <- lift (df w start_time satellite) ;;
  emit (Subheader ("Ground Track for: " +++ selected_satellite_name)) ;;
  let fig :=
    scatter_geo df "Latitude" "Longitude" "Altitude (km)" ["Timestamp"]
      "natural earth"
      ("Orbital Path Simulation (" +++ selected_satellite_name +++ ")") in
  let fig := update_traces fig 5 in
  let fig := update_layout fig 600 in
  emit (PlotlyChart fig) ;;
  emit (Markdown (info selected_satellite_name start_time w)) ;;
  emit (Dataframe df) ;;
  let csv := encode_utf8 (to_csv df) in
  emit (DownloadButton "Download as CSV" csv
          (file_name selected_satellite_name) "text/csv") ;;
  emit (Markdown footer_text).

(** *** Notions the properties of the page are stated with *)

(** The start of the minute the clock shows. *)
Definition minute_start (start_time : datetime) : Time :=
  dt_seconds start_time - second start_time.

(** [s] is the timestamp the loop appends for the instant [t]. *)
Definition stamped (tz : tzinfo) (t : Time) (s : string) : Prop :=
  exists lt, local_time tz t = Ok lt /\ s = strftime lt.

(** The column of timestamps of a table. *)
Definition timestamp_column (table : DataFrame) : list string :=
  match table with
  | (_, StrColumn v) :: _ => v
  | _ => []
  end.

(** The events every render starts with. *)
Definition prelude : list event :=
  [ SetPageConfig "Satellite Ground Track Tracker" "wide";
    Markdown title_text;
    SidebarHeader "Satellite Simulation Settings" ].

(** The events a render ends with once its table exists. *)
Definition shown (w : widgets) (start_time : datetime)
    (selected_satellite_name : string) (table : DataFrame) : list event :=
  [ Subheader ("Ground Track for: " +++ selected_satellite_name);
    PlotlyChart
      (mk_figure table "Latitude" "Longitude" "Altitude (km)" ["Timestamp"]
         "natural earth"
         ("Orbital Path Simulation (" +++ selected_satellite_name +++ ")") 5 600);
    Markdown (info selected_satellite_name start_time w);
    Dataframe table;
    DownloadButton "Download as CSV" (to_csv table)
      (file_name selected_satellite_name) "text/csv";
    Markdown footer_text ].

(** The catalog addresses a render fetched. *)
Definition fetches (es : list event) : list string :=
  flat_map (fun ev => match ev with Fetch url => [url] | _ => [] end) es.

(** The tables a render handed to the plot and to the table view. *)
Definition tables_used (es : list event) : list DataFrame :=
  flat_map (fun ev =>
    match ev with
    | PlotlyChart fig => [fig_data fig]
    | Dataframe data => [data]
    | _ => []
    end) es.

(** The files a render offered for download. *)
Definition downloads (es : list event) : list (string * string * string) :=
  flat_map (fun ev =>
    match ev with
    | DownloadButton _ data name mime => [(data, name, mime)]
    | _ => []
    end) es.

(** The float cells of a table. *)
Definition float_cells (table : DataFrame) : list float :=
  flat_map (fun kc =>
    match snd kc with
    | FloatColumn v => v
    | StrColumn _ => []
    end) table.

End App.

(** The types of satellites and of floats are read off the arguments. *)
Arguments by_name {Satellite}.
Arguments satellite_names {Satellite}.
Arguments Done {A} a.
Arguments Stopped {A}.
Arguments Crashed {A} e.
Arguments column_length {float}.
Arguments pd_DataFrame {float}.
Arguments columns {float}.
Arguments nrows {float}.
Arguments cell_text {float}.
Arguments row_text {float}.
Arguments to_csv {float}.
Arguments scatter_geo {float}.
Arguments update_traces {float}.
Arguments update_layout {float}.
Arguments ret {float A}.
Arguments bind {float A B}.
Arguments emit {float}.
Arguments stop {float A}.
Arguments lift {float A}.
Arguments pick_satellite {Satellite float}.
Arguments observe_step {Satellite float}.
Arguments observe {Satellite float}.
Arguments df_of_track {float}.
Arguments df {Satellite float}.
Arguments main {Satellite float}.
Arguments timestamp_column {float}.
Arguments prelude {float}.
Arguments shown {float}.
Arguments fetches {float}.
Arguments tables_used {float}.
Arguments downloads {float}.
Arguments float_cells {float}.
Arguments StrColumn {float}.
Arguments FloatColumn {float}.
Arguments mk_figure {float}.
Arguments fig_data {float}.
Arguments fig_lat {float}.
Arguments fig_lon {float}.
Arguments fig_color {float}.
Arguments fig_hover_data {float}.
Arguments fig_projection {float}.
Arguments fig_title {float}.
Arguments fig_marker_size {float}.
Arguments fig_height {float}.
Arguments SetPageConfig {float}.
Arguments Markdown {float}.
Arguments SidebarHeader {float}.
Arguments SidebarMarkdown {float}.
Arguments SidebarError {float}.
Arguments Spinner {float}.
Arguments Fetch {float}.
Arguments Subheader {float}.
Arguments PlotlyChart {float}.
Arguments Dataframe {float}.
Arguments DownloadButton {float}.
Arguments mk_track {float}.
Arguments lats {float}.
Arguments lons {float}.
Arguments altitudes {float}.
Arguments timestamps {float}.

(** * Properties *)

(** ** The models on concrete values *)

Example ord2ymd_today : ord2ymd (ymd2ord 2026 11 4) = (2026, 11, 4).
Proof. reflexivity. Qed.

Example ord2ymd_end_of_cycle : ord2ymd 146097 = (400, 12, 31).
Proof. reflexivity. Qed.

Example weekday_sunday : weekday 2026 11 1 = 6.
Proof. reflexivity. Qed.

Example zfill_examples : zfill 4 (-5) = "-005" /\ zfill 2 7 = "07" /\ zfill 4 2026 = "2026".
Proof. repeat split. Qed.

Example arange_example : arange 0 60 25 = Ok [0; 25; 50].
Proof. reflexivity. Qed.

Example sorted_example : sorted ["b"; "a"; "C"] = ["C"; "a"; "b"].
Proof. reflexivity. Qed.

Example file_name_example : file_name "ISS (ZARYA)" = "iss_(zarya)_ground_track.csv".
Proof. reflexivity. Qed.

Example eastern_fall_back :
  utcoffset_at (timezone US_Eastern) (mk_datetime 2026 11 1 5 59 59 0) = -14400 /\
  utcoffset_at (timezone US_Eastern) (mk_datetime 2026 11 1 6 0 0 0) = -18000.
Proof. split; vm_compute; reflexivity. Qed.

Example london_fall_back :
  utcoffset_at (timezone Europe_London) (mk_datetime 2026 10 25 0 59 59 0) = 3600 /\
  utcoffset_at (timezone Europe_London) (mk_datetime 2026 10 25 1 0 0 0) = 0.
Proof. split; vm_compute; reflexivity. Qed.

Example local_time_example :
  rbind (local_time (timezone Asia_Kolkata) (dt_seconds (mk_datetime 2026 11 4 12 0 0 0)))
        (fun lt => Ok (strftime lt))
  = Ok "2026-11-04 17:30:00".
Proof. vm_compute. reflexivity. Qed.

Example csv_example :
  Csv.read (Csv.write [["a"; "b"]; ["1"; "2"]]) = [["a"; "b"]; ["1"; "2"]].
Proof. reflexivity. Qed.

(** ** The calendar *)

Ltac zbool :=
  repeat match goal with
  | H : (_ && _)%bool = true |- _ => apply andb_true_iff in H; destruct H
  | H : (_ && _)%bool = false |- _ => apply andb_false_iff in H; destruct H
  | H : (_ || _)%bool = true |- _ => apply orb_true_iff in H; destruct H
  | H : (_ || _)%bool = false |- _ => apply orb_false_iff in H; destruct H
  | H : negb _ = true |- _ => apply negb_true_iff in H
  | H : negb _ = false |- _ => apply negb_false_iff in H
  | H : (_ =? _) = true |- _ => apply Z.eqb_eq in H
  | H : (_ =? _) = false |- _ => apply Z.eqb_neq in H
  | H : (_ <? _) = true |- _ => apply Z.ltb_lt in H
  | H : (_ <? _) = false |- _ => apply Z.ltb_ge in H
  end.

Lemma days_before_year_succ y :
  days_before_year (y + 1) = days_before_year y + 365 + b2z (is_leap y).
Proof.
  unfold days_before_year, is_leap, b2z.
  replace (y + 1 - 1) with y by lia.
  destruct ((y mod 4 =? 0) && (negb (y mod 100 =? 0) || (y mod 400 =? 0))) eqn:E;
    zbool; Z.div_mod_to_equations; lia.
Qed.

Lemma days_before_year_mono y y' : y <= y' -> days_before_year y <= days_before_year y'.
Proof.
  unfold days_before_year. intros. Z.div_mod_to_equations. lia.
Qed.

Lemma month_cases n : 0 <= n <= 365 ->
  let m := Z.shiftr (n + 50) 5 in
  m = 1 \/ m = 2 \/ m = 3 \/ m = 4 \/ m = 5 \/ m = 6 \/
  m = 7 \/ m = 8 \/ m = 9 \/ m = 10 \/ m = 11 \/ m = 12.
Proof.
  intros H m. subst m. rewrite Z.shiftr_div_pow2 by lia.
  change (2 ^ 5) with 32. Z.div_mod_to_equations. lia.
Qed.

Lemma month_day_spec leap n :
  0 <= n < 365 + b2z leap ->
  let '(m, d) := month_day leap n in
  1 <= m <= 12 /\
  1 <= d <= DAYS_IN_MONTH m + b2z ((m =? 2) && leap) /\
  DAYS_BEFORE_MONTH m + b2z ((2 <? m) && leap) + d = n + 1.
Proof.
  intros H. unfold month_day.
  assert (Hn : 0 <= n <= 365) by (destruct leap; simpl in H; lia).
  pose proof (month_cases n Hn) as Hm. cbv zeta in Hm.
  assert (Hd : 32 * Z.shiftr (n + 50) 5 <= n + 50 < 32 * Z.shiftr (n + 50) 5 + 32).
  { rewrite Z.shiftr_div_pow2 by lia. change (2 ^ 5) with 32.
    Z.div_mod_to_equations. lia. }
  destruct Hm as [E|[E|[E|[E|[E|[E|[E|[E|[E|[E|[E|E]]]]]]]]]]];
    rewrite E in *; destruct leap; cbn -[Z.add Z.sub] in *;
    match goal with |- context [n <? ?b] => destruct (Z.ltb_spec n b) end;
    repeat match goal with
      | |- context [Z.pos ?p - 1] =>
          let v := eval vm_compute in (Z.pos p - 1) in
          change (Z.pos p - 1) with v
      end;
    cbn -[Z.add Z.sub]; lia.
Qed.

Lemma is_leap_spec y :
  is_leap y = true <-> (y mod 4 = 0 /\ (y mod 100 <> 0 \/ y mod 400 = 0)).
Proof.
  unfold is_leap.
  rewrite andb_true_iff, orb_true_iff, negb_true_iff, !Z.eqb_eq, Z.eqb_neq.
  tauto.
Qed.

Lemma is_leap_cases y :
  (is_leap y = true /\ y mod 4 = 0 /\ (y mod 100 <> 0 \/ y mod 400 = 0)) \/
  (is_leap y = false /\ (y mod 4 <> 0 \/ (y mod 100 = 0 /\ y mod 400 <> 0))).
Proof.
  pose proof (is_leap_spec y) as H.
  destruct (is_leap y).
  - left. split; [reflexivity | apply H; reflexivity].
  - right. split; [reflexivity |].
    destruct (Z.eq_dec (y mod 4) 0); [| left; assumption].
    right. destruct (Z.eq_dec (y mod 100) 0), (Z.eq_dec (y mod 400) 0);
      try (assert (false = true) by (apply H; tauto); discriminate).
    tauto.
Qed.

Lemma ord2ymd_spec n :
  let '(y, m, d) := ord2ymd n in
  1 <= m <= 12 /\ 1 <= d <= days_in_month y m /\ ymd2ord y m d = n.
Proof.
  unfold ord2ymd.
  set (n0 := n - 1).
  set (n400 := n0 / DI400Y). set (r400 := n0 mod DI400Y).
  set (n100 := r400 / DI100Y). set (r100 := r400 mod DI100Y).
  set (n4 := r100 / DI4Y). set (r4 := r100 mod DI4Y).
  set (n1 := r4 / 365). set (r1 := r4 mod 365).
  assert (E400 : n0 = DI400Y * n400 + r400 /\ 0 <= r400 < DI400Y)
    by (subst n400 r400; unfold DI400Y; Z.div_mod_to_equations; lia).
  assert (E100 : r400 = DI100Y * n100 + r100 /\ 0 <= r100 < DI100Y)
    by (subst n100 r100; unfold DI100Y; Z.div_mod_to_equations; lia).
  assert (E4 : r100 = DI4Y * n4 + r4 /\ 0 <= r4 < DI4Y)
    by (subst n4 r4; unfold DI4Y; Z.div_mod_to_equations; lia).
  assert (E1 : r4 = 365 * n1 + r1 /\ 0 <= r1 < 365)
    by (subst n1 r1; Z.div_mod_to_equations; lia).
  clearbody n400 r400 n100 r100 n4 r4 n1 r1.
  unfold DI400Y, DI100Y, DI4Y in *.
  set (y := n400 * 400 + 1 + n100 * 100 + n4 * 4 + n1).
  destruct ((n1 =? 4) || (n100 =? 4)) eqn:Esp.
  - unfold days_in_month, ymd2ord, days_before_month, days_before_year.
    cbn -[Z.add Z.sub Z.mul Z.div is_leap].
    destruct (is_leap_cases (y - 1)) as [(-> & L4 & L100) | (-> & L)];
      unfold b2z; subst y n0; zbool; Z.div_mod_to_equations; lia.
  - set (leapyear := (n1 =? 3) && (negb (n4 =? 24) || (n100 =? 3))).
    assert (Hleap : is_leap y = leapyear).
    { subst leapyear.
      destruct (is_leap_cases y) as [(-> & L4 & L100) | (-> & L)]; symmetry.
      - apply andb_true_iff; rewrite orb_true_iff, negb_true_iff, !Z.eqb_eq, Z.eqb_neq.
        subst y; zbool; Z.div_mod_to_equations; lia.
      - apply andb_false_iff; rewrite orb_false_iff, negb_false_iff, !Z.eqb_eq, !Z.eqb_neq.
        subst y; zbool; Z.div_mod_to_equations; lia. }
    pose proof (month_day_spec leapyear r1) as Hmd.
    destruct (month_day leapyear r1) as [m d].
    destruct Hmd as (Hm & Hd & Hsum); [destruct leapyear; simpl; lia |].
    unfold days_in_month, ymd2ord, days_before_month. rewrite Hleap.
    split; [exact Hm | split].
    + destruct ((m =? 2) && leapyear) eqn:E2.
      * zbool. subst m. simpl in Hd. lia.
      * simpl in Hd. lia.
    + unfold days_before_year. subst y n0. zbool. Z.div_mod_to_equations. lia.
Qed.

Lemma month_range m : 1 <= m <= 12 ->
  m = 1 \/ m = 2 \/ m = 3 \/ m = 4 \/ m = 5 \/ m = 6 \/
  m = 7 \/ m = 8 \/ m = 9 \/ m = 10 \/ m = 11 \/ m = 12.
Proof. lia. Qed.

Ltac each_month H :=
  destruct H as [H|[H|[H|[H|[H|[H|[H|[H|[H|[H|[H|H]]]]]]]]]]]; subst.

Lemma days_before_month_next y m m' :
  1 <= m -> m < m' -> m' <= 12 ->
  days_before_month y m + days_in_month y m <= days_before_month y m'.
Proof.
  intros H1 H2 H3.
  assert (Hm : 1 <= m <= 12) by lia. assert (Hm' : 1 <= m' <= 12) by lia.
  apply month_range in Hm, Hm'.
  unfold days_before_month, days_in_month.
  destruct (is_leap y); each_month Hm; each_month Hm'; cbn; lia.
Qed.

Lemma days_in_year_bound y m :
  1 <= m <= 12 ->
  0 <= days_before_month y m /\
  days_before_month y m + days_in_month y m <= 365 + b2z (is_leap y).
Proof.
  intros Hm. apply month_range in Hm.
  unfold days_before_month, days_in_month.
  destruct (is_leap y); each_month Hm; cbn; lia.
Qed.

Lemma days_in_month_range y m : 1 <= m <= 12 -> 28 <= days_in_month y m <= 31.
Proof.
  intros H. apply month_range in H. unfold days_in_month.
  destruct (is_leap y); each_month H; cbn; lia.
Qed.

Lemma ymd2ord_bounds y m d :
  valid_ymd y m d ->
  days_before_year y < ymd2ord y m d <= days_before_year (y + 1).
Proof.
  intros [Hm Hd]. rewrite days_before_year_succ. unfold ymd2ord.
  pose proof (days_in_year_bound y m Hm). lia.
Qed.

Lemma ymd2ord_lt y m d y' m' d' :
  valid_ymd y m d -> valid_ymd y' m' d' ->
  y < y' \/ (y = y' /\ (m < m' \/ (m = m' /\ d < d'))) ->
  ymd2ord y m d < ymd2ord y' m' d'.
Proof.
  intros V V' [Hy | [-> [Hm | [-> Hd]]]].
  - pose proof (ymd2ord_bounds _ _ _ V). pose proof (ymd2ord_bounds _ _ _ V').
    pose proof (days_before_year_mono (y + 1) y'). lia.
  - destruct V as [Vm Vd], V' as [Vm' Vd']. unfold ymd2ord.
    pose proof (days_before_month_next y' m m'). lia.
  - unfold ymd2ord. lia.
Qed.

Lemma ord2ymd_year_bounds n y m d :
  ord2ymd n = (y, m, d) ->
  valid_ymd y m d /\ ymd2ord y m d = n /\
  days_before_year y < n <= days_before_year (y + 1).
Proof.
  intros E. pose proof (ord2ymd_spec n) as H. rewrite E in H.
  destruct H as (Hm & Hd & Ho).
  assert (V : valid_ymd y m d) by (split; assumption).
  pose proof (ymd2ord_bounds _ _ _ V). repeat split; try tauto; lia.
Qed.

Lemma year_lower a n y :
  days_before_year a < n -> n <= days_before_year (y + 1) -> a <= y.
Proof.
  intros H1 H2. destruct (Z_le_gt_dec a y); [assumption |].
  pose proof (days_before_year_mono (y + 1) a). lia.
Qed.

Lemma year_upper b n y :
  days_before_year y < n -> n <= days_before_year (b + 1) -> y <= b.
Proof.
  intros H1 H2. destruct (Z_le_gt_dec y b); [assumption |].
  pose proof (days_before_year_mono (b + 1) y). lia.
Qed.

(** ** Decimal text *)

Lemma all_from_spec fuel : forall k P,
  all_from fuel k P = true ->
  forall z, k <= z < k + Z.of_nat fuel -> P z = true.
Proof.
  induction fuel as [|fuel IH]; intros k P H z Hz; [lia |].
  cbn [all_from] in H. apply andb_true_iff in H. destruct H as [Hk Hrest].
  destruct (Z.eq_dec z k) as [-> | Hne]; [exact Hk |].
  apply (IH (k + 1) P Hrest). lia.
Qed.

Lemma forall_below (P : Z -> bool) (n : Z) :
  all_from (Z.to_nat n) 0 P = true ->
  forall z, 0 <= z < n -> P z = true.
Proof.
  intros H z Hz. apply (all_from_spec _ _ _ H). lia.
Qed.

Lemma zfill2_spec n : 0 <= n < 100 -> zfill 2 n = two_digits n.
Proof.
  intros H. apply String.eqb_eq.
  apply (forall_below (fun k => String.eqb (zfill 2 k) (two_digits k)) 100);
    [vm_compute; reflexivity | lia].
Qed.

Lemma zfill4_spec y :
  0 <= y < 10000 -> zfill 4 y = two_digits (y / 100) +++ two_digits (y mod 100).
Proof.
  intros H. apply String.eqb_eq.
  apply (forall_below
           (fun k => String.eqb (zfill 4 k)
                       (two_digits (k / 100) +++ two_digits (k mod 100))) 10000);
    [vm_compute; reflexivity | lia].
Qed.

Lemma digit_cases k : 0 <= k <= 9 ->
  k = 0 \/ k = 1 \/ k = 2 \/ k = 3 \/ k = 4 \/ k = 5 \/ k = 6 \/ k = 7 \/ k = 8 \/ k = 9.
Proof. lia. Qed.

Ltac each_digit H :=
  destruct H as [H|[H|[H|[H|[H|[H|[H|[H|[H|H]]]]]]]]]; subst.

Lemma digit_value_digit k : 0 <= k <= 9 -> digit_value (digit k) = Some k.
Proof. intros H. apply digit_cases in H. each_digit H; reflexivity. Qed.

Lemma digit_compare a b :
  0 <= a <= 9 -> 0 <= b <= 9 -> Ascii.compare (digit a) (digit b) = (a ?= b).
Proof.
  intros Ha Hb. apply digit_cases in Ha, Hb.
  each_digit Ha; each_digit Hb; reflexivity.
Qed.

Lemma digit_plain k : 0 <= k <= 9 -> Csv.special (digit k) = false.
Proof. intros H. apply digit_cases in H. each_digit H; reflexivity. Qed.

Lemma two_digits_compare a b :
  0 <= a < 100 -> 0 <= b < 100 ->
  String.compare (two_digits a) (two_digits b) = (a ?= b).
Proof.
  intros Ha Hb. unfold two_digits. cbn [String.compare].
  rewrite !digit_compare by (Z.div_mod_to_equations; lia).
  destruct (Z.compare_spec (a / 10) (b / 10));
    destruct (Z.compare_spec (a mod 10) (b mod 10));
    symmetry; rewrite ?Z.compare_eq_iff, ?Z.compare_lt_iff, ?Z.compare_gt_iff;
    Z.div_mod_to_equations; lia.
Qed.

Lemma two_digits_plain n : 0 <= n < 100 -> Csv.plain (two_digits n) = true.
Proof.
  intros H. unfold Csv.plain, two_digits. cbn [string_forallb].
  rewrite !digit_plain by (Z.div_mod_to_equations; lia). reflexivity.
Qed.

Lemma plain_app a b :
  Csv.plain (a +++ b) = Csv.plain a && Csv.plain b.
Proof.
  unfold Csv.plain. induction a as [|c a IH]; [reflexivity |].
  cbn [String.append string_forallb]. now rewrite IH, andb_assoc.
Qed.

Lemma append_assoc (a b c : string) : (a +++ b) +++ c = a +++ b +++ c.
Proof. induction a as [|x a IH]; [reflexivity | cbn; now rewrite IH]. Qed.

Lemma take_two_digits n acc rest :
  0 <= n < 100 ->
  take_digits 2 acc (two_digits n +++ rest) = Some (acc * 100 + n, rest).
Proof.
  intros H. unfold two_digits. cbn [take_digits String.append].
  rewrite !digit_value_digit by (Z.div_mod_to_equations; lia).
  do 2 f_equal. Z.div_mod_to_equations; lia.
Qed.

Lemma take_digits_add n m : forall acc s,
  take_digits (n + m) acc s =
  match take_digits n acc s with
  | Some (v, r) => take_digits m v r
  | None => None
  end.
Proof.
  induction n as [|n IH]; intros acc s; [reflexivity |].
  cbn [Nat.add take_digits]. destruct s as [|c s]; [reflexivity |].
  destruct (digit_value c); [apply IH | reflexivity].
Qed.

Lemma take_four_digits a b acc rest :
  0 <= a < 100 -> 0 <= b < 100 ->
  take_digits 4 acc ((two_digits a +++ two_digits b) +++ rest)
  = Some ((acc * 100 + a) * 100 + b, rest).
Proof.
  intros Ha Hb. rewrite append_assoc.
  rewrite (take_digits_add 2 2).
  rewrite take_two_digits by assumption.
  now rewrite take_two_digits by assumption.
Qed.

Lemma take_char_cons c rest : take_char c (String c rest) = Some rest.
Proof. cbn. now rewrite Ascii.eqb_refl. Qed.

(** Comparing texts that start with pieces of one length. *)
Lemma compare_app a b s t :
  String.length a = String.length b ->
  String.compare (a +++ s) (b +++ t) =
  match String.compare a b with
  | Eq => String.compare s t
  | c => c
  end.
Proof.
  revert b. induction a as [|c a IH]; intros [|c' b] Hl; try discriminate.
  - reflexivity.
  - cbn [String.append String.compare].
    destruct (Ascii.compare c c'); auto.
Qed.

Lemma compare_cons c s t :
  String.compare (String c s) (String c t) = String.compare s t.
Proof.
  cbn [String.compare].
  assert (E : Ascii.compare c c = Eq) by
    (unfold Ascii.compare; apply N.compare_refl).
  now rewrite E.
Qed.

Lemma zfill4_length y : 0 <= y < 10000 -> String.length (zfill 4 y) = 4%nat.
Proof. intros H. rewrite zfill4_spec by assumption. reflexivity. Qed.

Lemma zfill2_length n : 0 <= n < 100 -> String.length (zfill 2 n) = 2%nat.
Proof. intros H. rewrite zfill2_spec by assumption. reflexivity. Qed.

Lemma zfill2_compare a b :
  0 <= a < 100 -> 0 <= b < 100 -> String.compare (zfill 2 a) (zfill 2 b) = (a ?= b).
Proof.
  intros Ha Hb. rewrite !zfill2_spec by assumption.
  now apply two_digits_compare.
Qed.

Lemma zfill4_compare a b :
  0 <= a < 10000 -> 0 <= b < 10000 ->
  String.compare (zfill 4 a) (zfill 4 b) = (a ?= b).
Proof.
  intros Ha Hb. rewrite !zfill4_spec by assumption.
  rewrite compare_app by reflexivity.
  rewrite !two_digits_compare by (Z.div_mod_to_equations; lia).
  destruct (Z.compare_spec (a / 100) (b / 100));
    destruct (Z.compare_spec (a mod 100) (b mod 100));
    symmetry; rewrite ?Z.compare_eq_iff, ?Z.compare_lt_iff, ?Z.compare_gt_iff;
    Z.div_mod_to_equations; lia.
Qed.

(** ** Fields and seconds *)

Lemma dt_of_seconds_spec n us :
  let dt := dt_of_seconds n us in
  wellformed dt /\ dt_seconds dt = n /\ microsecond dt = us /\
  days_before_year (year dt) < n / 86400 <= days_before_year (year dt + 1).
Proof.
  unfold dt_of_seconds.
  destruct (ord2ymd (n / 86400)) as [[y m] d] eqn:E.
  apply ord2ymd_year_bounds in E. destruct E as (V & Ho & Hb).
  cbn zeta. unfold wellformed, dt_seconds, toordinal. cbn [year month day hour minute second microsecond].
  rewrite Ho. repeat split; try apply V; try apply Hb;
    Z.div_mod_to_equations; lia.
Qed.

Lemma fields_trichotomy a b : fields_lt a b \/ fields_eq a b \/ fields_lt b a.
Proof. unfold fields_lt, fields_eq. lia. Qed.

(** The order of the fields is the order of the seconds. *)
Lemma dt_seconds_lt a b :
  wellformed a -> wellformed b -> fields_lt a b -> dt_seconds a < dt_seconds b.
Proof.
  intros (Va & Ha) (Vb & Hb) H. unfold dt_seconds, toordinal.
  assert (D : ymd2ord (year a) (month a) (day a) < ymd2ord (year b) (month b) (day b)
              \/ (ymd2ord (year a) (month a) (day a) = ymd2ord (year b) (month b) (day b)
                  /\ hour a * 3600 + minute a * 60 + second a
                     < hour b * 3600 + minute b * 60 + second b)).
  { destruct H as [H | [Ey [H | [Em [H | [Ed H]]]]]].
    - left. apply ymd2ord_lt; auto.
    - left. apply ymd2ord_lt; auto.
    - left. apply ymd2ord_lt; auto.
    - right. rewrite Ey, Em, Ed. split; [reflexivity | lia]. }
  lia.
Qed.

Lemma fields_lt_iff a b :
  wellformed a -> wellformed b ->
  (fields_lt a b <-> dt_seconds a < dt_seconds b).
Proof.
  intros Wa Wb. split; [apply dt_seconds_lt; assumption |].
  intros Hlt. destruct (fields_trichotomy a b) as [H | [H | H]]; [exact H | |].
  - exfalso. destruct H as (e1 & e2 & e3 & e4 & e5 & e6).
    unfold dt_seconds, toordinal in Hlt.
    rewrite e1, e2, e3, e4, e5, e6 in Hlt. lia.
  - apply dt_seconds_lt in H; [lia | assumption | assumption].
Qed.

Lemma dt_fields_eq a b :
  wellformed a -> wellformed b ->
  dt_seconds a = dt_seconds b -> microsecond a = microsecond b -> a = b.
Proof.
  intros Wa Wb Es Eu.
  destruct (fields_trichotomy a b) as [H | [H | H]].
  - apply dt_seconds_lt in H; [lia | assumption | assumption].
  - unfold fields_eq in H. destruct a, b; cbn in *.
    destruct H as (e1 & e2 & e3 & e4 & e5 & e6). congruence.
  - apply dt_seconds_lt in H; [lia | assumption | assumption].
Qed.

Lemma dt_of_seconds_inv dt :
  wellformed dt -> dt_of_seconds (dt_seconds dt) (microsecond dt) = dt.
Proof.
  intros W.
  destruct (dt_of_seconds_spec (dt_seconds dt) (microsecond dt)) as (W' & Es & Eu & _).
  apply dt_fields_eq; assumption.
Qed.

Lemma valid_datetime_wellformed dt : valid_datetime dt = true -> wellformed dt.
Proof.
  unfold valid_datetime, wellformed, valid_ymd. intros H.
  repeat (apply andb_true_iff in H; destruct H as [H ?]).
  repeat match goal with H : (_ <=? _) = true |- _ => apply Z.leb_le in H end.
  lia.
Qed.

Lemma printable_ranges dt :
  printable dt ->
  0 <= year dt < 10000 /\ 0 <= month dt < 100 /\ 0 <= day dt < 100 /\
  0 <= hour dt < 100 /\ 0 <= minute dt < 100 /\ 0 <= second dt < 100.
Proof.
  intros (((Hm & Hd) & Hh & Hmi & Hs) & Hy).
  pose proof (days_in_month_range (year dt) (month dt) Hm). lia.
Qed.

Lemma printable_valid dt :
  printable dt -> 0 <= microsecond dt <= 999999 -> valid_datetime dt = true.
Proof.
  intros (((Hm & Hd) & Hh & Hmi & Hs) & Hy) Hu. unfold valid_datetime.
  repeat (apply andb_true_iff; split); apply Z.leb_le; lia.
Qed.

Lemma valid_printable dt : valid_datetime dt = true -> printable dt.
Proof.
  intros V. split; [now apply valid_datetime_wellformed |].
  unfold valid_datetime in V.
  repeat (apply andb_true_iff in V; destruct V as [V ?]).
  repeat match goal with H : (_ <=? _) = true |- _ => apply Z.leb_le in H end.
  lia.
Qed.

Lemma year_of_seconds a b n us :
  first_second a <= n < first_second (b + 1) ->
  a <= year (dt_of_seconds n us) <= b.
Proof.
  unfold first_second. intros H.
  destruct (dt_of_seconds_spec n us) as (_ & _ & _ & Hb).
  split.
  - apply (year_lower a (n / 86400)); [Z.div_mod_to_equations; lia | apply Hb].
  - apply (year_upper b (n / 86400)); [apply Hb | Z.div_mod_to_equations; lia].
Qed.

Lemma printable_of_seconds n us :
  first_second 1 <= n < first_second 10000 -> printable (dt_of_seconds n us).
Proof.
  intros H. split.
  - apply dt_of_seconds_spec.
  - apply (year_of_seconds 1 9999 n us). exact H.
Qed.

(** ** Printed timestamps *)

(** The order of the printed texts is the order of the fields. *)
Lemma strftime_compare a b :
  printable a -> printable b -> microsecond a = microsecond b ->
  String.compare (strftime a) (strftime b) = dt_compare a b.
Proof.
  intros Pa Pb Eu.
  destruct (printable_ranges a Pa) as (Ya & Ma & Da & Ha & Mia & Sa).
  destruct (printable_ranges b Pb) as (Yb & Mb & Db & Hb & Mib & Sb).
  unfold strftime, dt_compare.
  rewrite compare_app by (rewrite !zfill4_length; auto).
  rewrite zfill4_compare by assumption.
  destruct (year a ?= year b); try reflexivity.
  cbn [String.append]. rewrite compare_cons.
  rewrite compare_app by (rewrite !zfill2_length; auto).
  rewrite zfill2_compare by assumption.
  destruct (month a ?= month b); try reflexivity.
  cbn [String.append]. rewrite compare_cons.
  rewrite compare_app by (rewrite !zfill2_length; auto).
  rewrite zfill2_compare by assumption.
  destruct (day a ?= day b); try reflexivity.
  cbn [String.append]. rewrite compare_cons.
  rewrite compare_app by (rewrite !zfill2_length; auto).
  rewrite zfill2_compare by assumption.
  destruct (hour a ?= hour b); try reflexivity.
  cbn [String.append]. rewrite compare_cons.
  rewrite compare_app by (rewrite !zfill2_length; auto).
  rewrite zfill2_compare by assumption.
  destruct (minute a ?= minute b); try reflexivity.
  cbn [String.append]. rewrite compare_cons.
  rewrite zfill2_compare by assumption.
  destruct (second a ?= second b); try reflexivity.
  rewrite Eu. symmetry. apply Z.compare_refl.
Qed.

Lemma dt_compare_lt a b :
  microsecond a = microsecond b ->
  (dt_compare a b = Lt <-> fields_lt a b).
Proof.
  intros Eu. unfold dt_compare, fields_lt. rewrite Eu, Z.compare_refl.
  destruct (Z.compare_spec (year a) (year b));
  destruct (Z.compare_spec (month a) (month b));
  destruct (Z.compare_spec (day a) (day b));
  destruct (Z.compare_spec (hour a) (hour b));
  destruct (Z.compare_spec (minute a) (minute b));
  destruct (Z.compare_spec (second a) (second b));
  split; intros; try discriminate; try reflexivity; lia.
Qed.

Lemma strftime_ltb a b :
  printable a -> printable b -> microsecond a = microsecond b ->
  (String.ltb (strftime a) (strftime b) = true <-> dt_seconds a < dt_seconds b).
Proof.
  intros Pa Pb Eu. unfold String.ltb.
  rewrite strftime_compare by assumption.
  rewrite <- (fields_lt_iff a b) by (apply Pa || apply Pb).
  rewrite <- dt_compare_lt by assumption.
  destruct (dt_compare a b); split; intros; congruence.
Qed.

(** A printed timestamp holds digits, dashes, colons and one space. *)
Lemma strftime_plain dt : printable dt -> Csv.plain (strftime dt) = true.
Proof.
  intros P. destruct (printable_ranges _ P) as (Hy & Hm & Hd & Hh & Hmi & Hs).
  unfold strftime. rewrite zfill4_spec, !zfill2_spec by assumption.
  rewrite !plain_app, !two_digits_plain by (Z.div_mod_to_equations; lia).
  reflexivity.
Qed.

(** ** Reading an instant back, local time *)

(** Reading back what [utc_iso] printed gives the fields it printed. *)
Lemma strptime_utc_iso t :
  printable (utc_tuple t) -> strptime (utc_iso t) = Ok (utc_tuple t).
Proof.
  intros P.
  assert (U : microsecond (utc_tuple t) = 0)
    by (destruct (dt_of_seconds_spec t 0) as (_ & _ & E & _); exact E).
  pose proof (printable_valid _ P) as V.
  destruct (printable_ranges _ P) as (Hy & Hm & Hd & Hh & Hmi & Hs).
  unfold utc_iso, strptime.
  destruct (utc_tuple t) as [y m d hh mm ss us].
  cbn [year month day hour minute second microsecond] in *. subst us.
  rewrite zfill4_spec, !zfill2_spec by assumption.
  rewrite take_four_digits by (Z.div_mod_to_equations; lia).
  cbn [String.append]. rewrite take_char_cons, take_two_digits by assumption.
  cbn [String.append]. rewrite take_char_cons, take_two_digits by assumption.
  cbn [String.append]. rewrite take_char_cons, take_two_digits by assumption.
  cbn [String.append]. rewrite take_char_cons, take_two_digits by assumption.
  cbn [String.append]. rewrite take_char_cons.
  rewrite take_two_digits by assumption. rewrite take_char_cons.
  replace ((0 * 100 + y / 100) * 100 + y mod 100) with y
    by (Z.div_mod_to_equations; lia).
  replace (0 * 100 + m) with m by lia. replace (0 * 100 + d) with d by lia.
  replace (0 * 100 + hh) with hh by lia. replace (0 * 100 + mm) with mm by lia.
  replace (0 * 100 + ss) with ss by lia.
  rewrite V by lia. reflexivity.
Qed.

Lemma strptime_valid s dt : strptime s = Ok dt -> valid_datetime dt = true.
Proof.
  unfold strptime. cbv zeta.
  match goal with
  | |- match ?p with Some _ => _ | None => _ end = _ -> _ => destruct p as [dt' |]
  end; [| discriminate].
  destruct (valid_datetime dt') eqn:V; [| discriminate].
  intros H. injection H as <-. exact V.
Qed.

(** What line 68 computes, once the instant and its local time fall in
    the years that print on four digits. *)
Lemma local_time_spec tz t :
  first_second 1 <= t < first_second 10000 ->
  first_second 1 <= t + utcoffset_at tz (utc_tuple t) < first_second 10000 ->
  local_time tz t = Ok (dt_of_seconds (t + utcoffset_at tz (utc_tuple t)) 0).
Proof.
  intros Ht Hl. unfold local_time.
  rewrite strptime_utc_iso by (apply printable_of_seconds; exact Ht).
  cbn [rbind]. unfold astimezone.
  destruct (dt_of_seconds_spec t 0) as (_ & Es & Eu & _).
  destruct tz as [| times info].
  - cbn [utcoffset_at]. now rewrite Z.add_0_r.
  - unfold dt_add. fold (utc_tuple t) in Es, Eu. rewrite Es, Eu.
    set (off := utcoffset_at (DstTzInfo times info) (utc_tuple t)) in *.
    assert (B : 0 < (t + off) / 86400 <= MAXORDINAL).
    { unfold first_second in Hl. change (days_before_year 1) with 0 in Hl.
      change (days_before_year 10000) with MAXORDINAL in Hl.
      Z.div_mod_to_equations. lia. }
    destruct B as [B1 B2].
    apply Z.ltb_lt in B1. apply Z.leb_le in B2. now rewrite B1, B2.
Qed.

(** Whatever line 68 returns prints on four and two digits. *)
Lemma local_time_printable tz t lt : local_time tz t = Ok lt -> printable lt.
Proof.
  unfold local_time. destruct (strptime (utc_iso t)) as [dt | e] eqn:E; [| discriminate].
  cbn [rbind]. apply strptime_valid, valid_printable in E.
  destruct tz as [| times info]; cbn [astimezone].
  - intros H. now injection H as <-.
  - unfold dt_add. cbv zeta.
    destruct ((0 <? _) && (_ <=? MAXORDINAL)) eqn:B; [| discriminate].
    intros H. injection H as <-.
    apply andb_true_iff in B. destruct B as [B1 B2].
    apply Z.ltb_lt in B1. apply Z.leb_le in B2.
    apply printable_of_seconds. unfold first_second.
    change (days_before_year 1) with 0. change (days_before_year 10000) with 3652059.
    unfold MAXORDINAL in B2. unfold utcoffset_at in B1, B2.
    Z.div_mod_to_equations. lia.
Qed.

Lemma stamped_plain tz t s : stamped tz t s -> Csv.plain s = true.
Proof.
  intros (lt & E & ->). apply strftime_plain. exact (local_time_printable _ _ _ E).
Qed.

Lemma stamps_plain tz times stamps :
  Forall2 (stamped tz) times stamps -> Forall (fun s => Csv.plain s = true) stamps.
Proof.
  induction 1 as [|t s times stamps H _ IH]; constructor; [| exact IH].
  exact (stamped_plain _ _ _ H).
Qed.

(** ** Offsets, sliders and zones *)

Lemma arange_spec stop step :
  0 < step ->
  arange 0 stop step
  = Ok (map (fun i => Z.of_nat i * step) (seq 0 (arange_len stop step))).
Proof.
  intros H. unfold arange. destruct (Z.eqb_spec step 0); [lia |].
  f_equal.
Qed.

(** The elements of [arange(0, stop, step)] are the multiples of [step]
    below [stop], all of them. *)
Lemma arange_len_spec stop step k :
  0 < step -> 0 <= k ->
  (k * step < stop <-> k < Z.of_nat (arange_len stop step)).
Proof.
  intros Hs Hk. unfold arange_len.
  pose proof (Z.div_mod (0 - stop) step ltac:(lia)) as E.
  pose proof (Z.mod_pos_bound (0 - stop) step Hs) as B.
  set (q := (0 - stop) / step) in *. set (r := (0 - stop) mod step) in *.
  destruct (Z_lt_le_dec q 0).
  - rewrite Z2Nat.id by lia. split; intros; nia.
  - replace (Z.to_nat (- q)) with O by lia. split; intros; nia.
Qed.

Lemma slider_value_range lo hi step v :
  slider_value lo hi step v = true -> lo <= v <= hi.
Proof.
  unfold slider_value. intros H.
  apply andb_true_iff in H. destruct H as [H _].
  apply andb_true_iff in H. destruct H as [H1 H2].
  apply Z.leb_le in H1, H2. lia.
Qed.

Lemma sliders_range w :
  sliders_ok w = true ->
  30 <= duration_minutes w <= 240 /\ 10 <= time_step w <= 120.
Proof.
  unfold sliders_ok. intros H. apply andb_true_iff in H. destruct H as [H1 H2].
  apply slider_value_range in H1, H2. lia.
Qed.

Lemma nth_bounds (lo hi : Z) (l : list Z) (i : nat) :
  forallb (fun x => (lo <=? x) && (x <=? hi)) l = true ->
  lo <= 0 <= hi -> lo <= nth i l 0 <= hi.
Proof.
  intros H H0. rewrite forallb_forall in H.
  destruct (nth_in_or_default i l 0) as [Hin | ->]; [| exact H0].
  specialize (H _ Hin). apply andb_true_iff in H. destruct H as [H1 H2].
  apply Z.leb_le in H1, H2. lia.
Qed.

(** No zone of the list is further than six hours from UTC. *)
Lemma utcoffset_bounds z dt : -18000 <= utcoffset_at (timezone z) dt <= 19800.
Proof.
  destruct z; cbn [timezone utcoffset_at tz_of_table]; [lia | | |];
    apply nth_bounds; try lia; vm_compute; reflexivity.
Qed.

Lemma utcoffset_UTC dt : utcoffset_at (timezone UTC) dt = 0.
Proof. reflexivity. Qed.

Lemma utcoffset_Kolkata dt : utcoffset_at (timezone Asia_Kolkata) dt = 19800.
Proof.
  cbn. destruct (dt_compare dt _); reflexivity.
Qed.

(** ** The time series *)

Lemma Forall2_nth_error {A B} (R : A -> B -> Prop) xs ys :
  Forall2 R xs ys ->
  forall i x, nth_error xs i = Some x ->
  exists y, nth_error ys i = Some y /\ R x y.
Proof.
  induction 1 as [|x0 y0 xs ys H0 _ IH]; intros i x Hn.
  - destruct i; discriminate.
  - destruct i as [|i]; cbn in *.
    + injection Hn as <-. now exists y0.
    + now apply IH.
Qed.

Lemma observation_times_spec w start_time :
  sliders_ok w = true ->
  observation_times w start_time
  = Ok (map (fun i => minute_start start_time + Z.of_nat i * time_step w)
            (seq 0 (arange_len (duration_minutes w * 60) (time_step w)))).
Proof.
  intros Hs. apply sliders_range in Hs.
  unfold observation_times, minutes. rewrite arange_spec by lia.
  cbn [rbind]. unfold ts_utc. rewrite map_map. f_equal.
  apply map_ext. intros i. unfold minute_start, dt_seconds, toordinal. lia.
Qed.

Lemma minute_start_bounds start_time :
  clock_ok start_time = true ->
  first_second 1001 <= minute_start start_time < first_second 9999.
Proof.
  unfold clock_ok. intros H.
  apply andb_true_iff in H. destruct H as [H Hhi].
  apply andb_true_iff in H. destruct H as [V Hlo].
  apply Z.leb_le in Hlo, Hhi.
  apply valid_datetime_wellformed in V. destruct V as (V & Hh & Hm & Hsec).
  pose proof (ymd2ord_bounds _ _ _ V) as B.
  pose proof (days_before_year_mono 1001 (year start_time) Hlo).
  pose proof (days_before_year_mono (year start_time + 1) 9999 ltac:(lia)).
  unfold minute_start, dt_seconds, toordinal, first_second. lia.
Qed.

(** Every instant of a render, and its local time in any of the four
    zones, lies in the years 1000 to 9999. *)
Lemma window_bounds w start_time times t :
  sliders_ok w = true -> clock_ok start_time = true ->
  observation_times w start_time = Ok times -> In t times ->
  first_second 1 <= t < first_second 10000 /\
  forall z dt, first_second 1 <= t + utcoffset_at (timezone z) dt < first_second 10000.
Proof.
  intros Hs Hc Ht Hin.
  rewrite observation_times_spec in Ht by assumption.
  injection Ht as <-. apply in_map_iff in Hin. destruct Hin as (i & <- & Hi).
  apply in_seq in Hi.
  pose proof (sliders_range w Hs) as R.
  pose proof (minute_start_bounds _ Hc) as B.
  assert (Hk : Z.of_nat i * time_step w < duration_minutes w * 60)
    by (apply arange_len_spec; lia).
  assert (H0 : 0 <= Z.of_nat i * time_step w) by nia.
  change (first_second 1001) with 31556995200 in B.
  change (first_second 9999) with 315506448000 in B.
  change (first_second 1) with 86400.
  change (first_second 10000) with 315537984000.
  split; [lia |]. intros z dt.
  pose proof (utcoffset_bounds z dt). lia.
Qed.

Lemma nth_error_times w start_time times i t :
  sliders_ok w = true ->
  observation_times w start_time = Ok times ->
  nth_error times i = Some t ->
  t = minute_start start_time + Z.of_nat i * time_step w /\
  Z.of_nat i * time_step w < duration_minutes w * 60.
Proof.
  intros Hs Ht Hn. rewrite observation_times_spec in Ht by assumption.
  injection Ht as <-.
  rewrite nth_error_map in Hn.
  destruct (nth_error (seq 0 _) i) as [k |] eqn:E; [| discriminate].
  injection Hn as <-.
  assert (Hi : (i < List.length (seq 0 (arange_len (duration_minutes w * 60) (time_step w))))%nat)
    by (apply nth_error_Some; congruence).
  rewrite length_seq in Hi.
  rewrite nth_error_nth' with (d := O) in E by (rewrite length_seq; exact Hi).
  rewrite seq_nth in E by exact Hi. injection E as <-. cbn [Nat.add].
  pose proof (sliders_range w Hs).
  split; [reflexivity |]. apply arange_len_spec; lia.
Qed.

(** The timestamp of an instant of a render, in one of the four zones. *)
Lemma stamped_in_window w start_time times t s :
  sliders_ok w = true -> clock_ok start_time = true ->
  observation_times w start_time = Ok times -> In t times ->
  stamped (timezone (selected_tz w)) t s ->
  first_second 1
    <= t + utcoffset_at (timezone (selected_tz w)) (utc_tuple t)
    < first_second 10000 /\
  s = strftime
        (dt_of_seconds (t + utcoffset_at (timezone (selected_tz w)) (utc_tuple t)) 0).
Proof.
  intros Hs Hc Et Hin (lt & E & ->).
  destruct (window_bounds w start_time times t Hs Hc Et Hin) as [B1 B2].
  split; [apply B2 |].
  rewrite local_time_spec in E by (exact B1 || apply B2).
  now injection E as <-.
Qed.

(** C9, as the code has it.  The offsets, kept in a variable called
    [minutes], are counts of seconds and go to the sixth positional
    parameter of the time scale constructor, its seconds: instant [i]
    is the start of the minute plus [i * time_step] seconds, and every
    instant lies less than [duration_minutes] minutes after the first. *)
Theorem C9_offsets_are_seconds w start_time :
  sliders_ok w = true ->
  exists times,
    observation_times w start_time = Ok times /\
    List.length times = arange_len (duration_minutes w * 60) (time_step w) /\
    forall i t, nth_error times i = Some t ->
      t = minute_start start_time + Z.of_nat i * time_step w /\
      t - minute_start start_time < duration_minutes w * 60 /\
      (t - minute_start start_time) / 60 < duration_minutes w.
Proof.
  intros Hs. eexists. split; [apply observation_times_spec; exact Hs |].
  split; [now rewrite length_map, length_seq |].
  intros i t Hn.
  destruct (nth_error_times w start_time _ i t Hs
              (observation_times_spec w start_time Hs) Hn) as [-> Hlt].
  split; [reflexivity |]. split; [lia |].
  apply Z.div_lt_upper_bound; lia.
Qed.

(** C10.  The first instant is the clock cut to the whole minute: its
    fields are the year, month, day, hour and minute of the clock with
    zero seconds, and it precedes the clock by the clock's seconds and
    microseconds, less than one minute. *)
Theorem C10_first_instant_is_minute_start w start_time :
  sliders_ok w = true -> valid_datetime start_time = true ->
  exists times t0,
    observation_times w start_time = Ok times /\
    nth_error times 0 = Some t0 /\
    utc_tuple t0
    = mk_datetime (year start_time) (month start_time) (day start_time)
                  (hour start_time) (minute start_time) 0 0 /\
    0 <= (dt_seconds start_time * 1000000 + microsecond start_time)
         - t0 * 1000000 < 60 * 1000000.
Proof.
  intros Hs Hv. pose proof (sliders_range w Hs) as R.
  assert (Hlen : (0 < arange_len (duration_minutes w * 60) (time_step w))%nat).
  { pose proof (arange_len_spec (duration_minutes w * 60) (time_step w) 0
                  ltac:(lia) ltac:(lia)) as [H _].
    specialize (H ltac:(lia)). lia. }
  eexists. exists (minute_start start_time).
  split; [apply observation_times_spec; exact Hs |].
  split.
  { destruct (arange_len _ _) as [|n]; [lia |]. cbn. f_equal. lia. }
  assert (Hu : 0 <= microsecond start_time <= 999999 /\ wellformed start_time).
  { split; [| now apply valid_datetime_wellformed].
    unfold valid_datetime in Hv.
    repeat (apply andb_true_iff in Hv; destruct Hv as [Hv ?]).
    repeat match goal with H : (_ <=? _) = true |- _ => apply Z.leb_le in H end.
    lia. }
  destruct Hu as (Hu & V & Hh & Hm & Hsec). split.
  - set (dt0 := mk_datetime (year start_time) (month start_time) (day start_time)
                  (hour start_time) (minute start_time) 0 0).
    assert (W0 : wellformed dt0) by (repeat split; cbn; try apply V; lia).
    replace (minute_start start_time) with (dt_seconds dt0)
      by (unfold minute_start, dt_seconds, toordinal; cbn; lia).
    exact (dt_of_seconds_inv dt0 W0).
  - unfold minute_start. lia.
Qed.

(** ** Writing and reading records *)

Lemma append_char (a : string) (c : ascii) (b : string) :
  (a +++ String c EmptyString) +++ b = a +++ String c b.
Proof. now rewrite append_assoc. Qed.

Lemma read_plain f : forall rest cur rec,
  Csv.plain f = true ->
  Csv.read_aux (f +++ rest) cur rec = Csv.read_aux rest (cur +++ f) rec.
Proof.
  induction f as [|c f IH]; intros rest cur rec H.
  - cbn [String.append]. f_equal.
    clear. induction cur as [|x cur IH]; [reflexivity | cbn; now rewrite <- IH].
  - unfold Csv.plain in H. cbn [string_forallb] in H.
    apply andb_true_iff in H. destruct H as [Hc Hf].
    apply negb_true_iff in Hc. unfold Csv.special in Hc.
    repeat (apply orb_false_iff in Hc; destruct Hc as [Hc ?]).
    cbn [String.append Csv.read_aux].
    replace (Ascii.eqb c Csv.newline) with false by (symmetry; assumption).
    replace (Ascii.eqb c Csv.comma) with false by (symmetry; assumption).
    rewrite IH by exact Hf. now rewrite append_char.
Qed.

Lemma read_line fs : forall rest rec,
  fs <> [] -> forallb Csv.plain fs = true ->
  Csv.read_aux (Csv.line fs +++ rest) EmptyString rec
  = (rev rec ++ fs) :: Csv.read_aux rest EmptyString [].
Proof.
  unfold Csv.line.
  induction fs as [|f fs IH]; intros rest rec Hne Hp; [congruence |].
  cbn [forallb] in Hp. apply andb_true_iff in Hp. destruct Hp as [Hf Hfs].
  assert (Ef : Csv.field f = f) by (unfold Csv.field; now rewrite Hf).
  destruct fs as [|g fs].
  - cbn [map join]. rewrite Ef, append_assoc, read_plain by exact Hf.
    cbn [String.append Csv.read_aux]. rewrite Ascii.eqb_refl. reflexivity.
  - change (join "," (map Csv.field (f :: g :: fs)))
      with (Csv.field f +++ "," +++ join "," (map Csv.field (g :: fs))).
    rewrite Ef, !append_assoc, read_plain by exact Hf.
    cbn [String.append Csv.read_aux].
    change (Ascii.eqb "," Csv.newline) with false.
    change (Ascii.eqb "," Csv.comma) with true. cbv iota.
    rewrite <- append_char.
    rewrite IH by (congruence || exact Hfs).
    cbn [rev]. now rewrite <- app_assoc.
Qed.

(** Records of plain fields come back as they were written. *)
Lemma read_write records :
  Forall (fun r => r <> [] /\ forallb Csv.plain r = true) records ->
  Csv.read (Csv.write records) = records.
Proof.
  unfold Csv.read. induction 1 as [|r records [Hne Hp] _ IH]; [reflexivity |].
  cbn [Csv.write fold_right]. rewrite read_line by assumption.
  cbn [rev app]. f_equal. exact IH.
Qed.

(** ** Lower case and the file name *)

Lemma lower_char_idempotent c : lower_char (lower_char c) = lower_char c.
Proof. destruct c as [[] [] [] [] [] [] [] []]; reflexivity. Qed.

Lemma lower_char_space c : lower_char c = " "%char -> c = " "%char.
Proof. destruct c as [[] [] [] [] [] [] [] []]; intros H; try reflexivity; discriminate H. Qed.

Lemma lower_replace_get name : forall i c,
  String.get i name = Some c ->
  String.get i (lower (replace " " "_" name))
  = Some (if Ascii.eqb c " " then "_"%char else lower_char c).
Proof.
  induction name as [|x name IH]; intros i c H; [destruct i; discriminate |].
  destruct i as [|i]; cbn [String.get replace lower] in *.
  - injection H as <-. destruct (Ascii.eqb x " "); reflexivity.
  - now apply IH.
Qed.

Lemma lower_replace_clean name :
  string_forallb (fun c => negb (Ascii.eqb c " ") && negb (is_upper c))
    (lower (replace " " "_" name)) = true.
Proof.
  induction name as [|x name IH]; [reflexivity |].
  cbn [replace lower string_forallb]. rewrite IH, andb_true_r.
  unfold is_upper. rewrite lower_char_idempotent, Ascii.eqb_refl, andb_true_r.
  apply negb_true_iff, Ascii.eqb_neq. intros E.
  destruct (Ascii.eqb_spec x " ") as [-> | Hx]; [discriminate E |].
  apply lower_char_space in E. contradiction.
Qed.

Lemma lower_replace_length name :
  String.length (lower (replace " " "_" name)) = String.length name.
Proof. induction name as [|x name IH]; [reflexivity | cbn; now rewrite IH]. Qed.

(** ** The page *)

Section Properties.

Context {Satellite float : Type}
  (EarthSatellite : string -> string -> string -> result Satellite)
  (load_tle_file : string -> result (list Satellite))
  (sat_name : Satellite -> string)
  (at_subpoint : Satellite -> Time -> GeographicPosition float)
  (float_repr : float -> string).

Set Default Proof Using "Type".

Local Abbreviation DataFrame := (DataFrame float).
Local Abbreviation event := (event float).
Local Abbreviation cell_text := (@cell_text float float_repr).
Local Abbreviation row_text := (@row_text float float_repr).
Local Abbreviation to_csv := (@to_csv float float_repr).
Local Abbreviation shown := (@shown float float_repr).
Local Abbreviation pick_satellite :=
  (@pick_satellite Satellite float EarthSatellite load_tle_file sat_name).
Local Abbreviation observe_step := (@observe_step Satellite float at_subpoint).
Local Abbreviation observe := (@observe Satellite float at_subpoint).
Local Abbreviation df := (@df Satellite float at_subpoint).
Local Abbreviation main :=
  (@main Satellite float EarthSatellite load_tle_file sat_name at_subpoint
         float_repr).

(** *** The loop *)

Lemma observe_raise satellite tz times e :
  fold_left (observe_step satellite tz) times (Raise e) = Raise e.
Proof. induction times as [|t times IH]; [reflexivity | exact IH]. Qed.

Lemma observe_from satellite tz times : forall k k',
  fold_left (observe_step satellite tz) times (Ok k) = Ok k' ->
  lats k' = lats k ++ map (fun t => latitude_degrees (at_subpoint satellite t)) times /\
  lons k' = lons k ++ map (fun t => longitude_degrees (at_subpoint satellite t)) times /\
  altitudes k' = altitudes k ++ map (fun t => elevation_km (at_subpoint satellite t)) times /\
  exists stamps,
    timestamps k' = timestamps k ++ stamps /\ Forall2 (stamped tz) times stamps.
Proof.
  induction times as [|t times IH]; intros k k' H.
  - cbn in H. injection H as <-. rewrite !app_nil_r.
    repeat split. exists []. rewrite app_nil_r. split; constructor.
  - cbn [fold_left] in H. unfold observe_step at 2 in H. cbn [rbind] in H.
    destruct (local_time tz t) as [lt | e] eqn:E; cbn [rbind] in H.
    + apply IH in H. cbn [lats lons altitudes timestamps] in H.
      destruct H as (H1 & H2 & H3 & stamps & H4 & H5).
      rewrite <- app_assoc in H1, H2, H3, H4. cbn [map].
      repeat split; try assumption.
      exists (strftime lt :: stamps). split; [exact H4 |].
      constructor; [| exact H5]. exists lt. split; [exact E | reflexivity].
    + rewrite observe_raise in H. discriminate.
Qed.

Lemma observe_total satellite tz times :
  (forall t, In t times -> exists lt, local_time tz t = Ok lt) ->
  forall k, exists k', fold_left (observe_step satellite tz) times (Ok k) = Ok k'.
Proof.
  induction times as [|t times IH]; intros H k.
  - exists k. reflexivity.
  - destruct (H t (or_introl eq_refl)) as [lt E].
    cbn [fold_left]. unfold observe_step at 2. cbn [rbind]. rewrite E. cbn [rbind].
    apply IH. intros t' Hin. apply H. now right.
Qed.

Lemma observe_inv satellite tz times k :
  observe satellite tz times = Ok k ->
  lats k = map (fun t => latitude_degrees (at_subpoint satellite t)) times /\
  lons k = map (fun t => longitude_degrees (at_subpoint satellite t)) times /\
  altitudes k = map (fun t => elevation_km (at_subpoint satellite t)) times /\
  Forall2 (stamped tz) times (timestamps k).
Proof.
  intros H. apply observe_from in H. cbn [lats lons altitudes timestamps app] in H.
  destruct H as (H1 & H2 & H3 & stamps & H4 & H5). rewrite H4.
  repeat split; assumption.
Qed.

(** *** The table *)

(** What a table that was built holds: the four columns, filled from
    the instants in their order. *)
Lemma df_inv w start_time satellite table :
  df w start_time satellite = Ok table ->
  exists times stamps,
    observation_times w start_time = Ok times /\
    Forall2 (stamped (timezone (selected_tz w))) times stamps /\
    table =
      [ ("Timestamp", StrColumn stamps);
        ("Latitude",
         FloatColumn (map (fun t => latitude_degrees (at_subpoint satellite t)) times));
        ("Longitude",
         FloatColumn (map (fun t => longitude_degrees (at_subpoint satellite t)) times));
        ("Altitude (km)",
         FloatColumn (map (fun t => elevation_km (at_subpoint satellite t)) times)) ].
Proof.
  unfold df. intros H.
  destruct (observation_times w start_time) as [times | e]; [| discriminate].
  cbn [rbind] in H.
  destruct (observe satellite (timezone (selected_tz w)) times) as [k | e] eqn:E;
    [| discriminate].
  cbn [rbind] in H. apply observe_inv in E. destruct E as (E1 & E2 & E3 & E4).
  exists times, (timestamps k). split; [reflexivity | split; [exact E4 |]].
  unfold df_of_track, pd_DataFrame in H.
  destruct (forallb _ _); [| discriminate].
  injection H as <-. now rewrite E1, E2, E3.
Qed.

(** A render with sliders on their grid and a clock in range builds
    its table. *)
Lemma df_total w start_time satellite :
  sliders_ok w = true -> clock_ok start_time = true ->
  exists table, df w start_time satellite = Ok table.
Proof.
  intros Hs Hc. unfold df.
  destruct (observation_times w start_time) as [times | e] eqn:Et;
    [| rewrite observation_times_spec in Et by assumption; discriminate].
  cbn [rbind].
  destruct (observe_total satellite (timezone (selected_tz w)) times) with
    (k := @mk_track float [] [] [] []) as [k E].
  { intros t Hin.
    destruct (window_bounds w start_time times t Hs Hc Et Hin) as [B1 B2].
    eexists. apply local_time_spec; [exact B1 | apply B2]. }
  fold (observe satellite (timezone (selected_tz w)) times) in E.
  rewrite E. cbn [rbind]. pose proof (observe_inv _ _ _ _ E) as (E1 & E2 & E3 & E4).
  apply Forall2_length in E4.
  unfold df_of_track, pd_DataFrame. rewrite E1, E2, E3.
  cbn [forallb snd column_length]. rewrite !length_map, <- E4, Nat.eqb_refl.
  eexists. reflexivity.
Qed.

(** *** The render, by the way the satellite was obtained *)

Lemma pick_custom_ok w satellite :
  use_custom_tle w = true ->
  EarthSatellite (tle_line1 w) (tle_line2 w) (tle_name w) = Ok satellite ->
  pick_satellite w
  = ([SidebarMarkdown "Enter your custom Two-Line Element (TLE) data:"],
     Done (satellite, tle_name w)).
Proof. intros Hc He. unfold pick_satellite. rewrite Hc, He. reflexivity. Qed.

Lemma pick_custom_raise w e :
  use_custom_tle w = true ->
  EarthSatellite (tle_line1 w) (tle_line2 w) (tle_name w) = Raise e ->
  pick_satellite w
  = ([SidebarMarkdown "Enter your custom Two-Line Element (TLE) data:";
      SidebarError ("Error parsing TLE: " +++ e)], Stopped).
Proof. intros Hc He. unfold pick_satellite. rewrite Hc, He. reflexivity. Qed.

Lemma pick_catalog w :
  use_custom_tle w = false ->
  exists o,
    pick_satellite w
    = ([Spinner "Fetching latest satellite data..."; Fetch tle_url], o) /\
    o <> Stopped /\
    forall e, load_tle_file tle_url = Raise e -> o = Crashed e.
Proof.
  intros Hc. unfold pick_satellite. rewrite Hc.
  destruct (load_tle_file tle_url) as [tle_lines | e].
  - cbn [lift ret bind emit app].
    destruct (selectbox _ _) as [nm |];
      [destruct (Dict.get _ nm) as [sat |] |];
      cbn; eexists; (split; [reflexivity | split; [discriminate | discriminate]]).
  - cbn. eexists. split; [reflexivity | split; [discriminate |]].
    intros e' E. now injection E as ->.
Qed.

(** The four ways a render ends. *)
Lemma main_cases w start_time :
  exists es o, pick_satellite w = (es, o) /\
  match o with
  | Done (satellite, selected_satellite_name) =>
      match df w start_time satellite with
      | Ok table =>
          main w start_time
          = (prelude ++ es ++ shown w start_time selected_satellite_name table, Done tt)
      | Raise e => main w start_time = (prelude ++ es, Crashed e)
      end
  | Stopped => main w start_time = (prelude ++ es, Stopped)
  | Crashed e => main w start_time = (prelude ++ es, Crashed e)
  end.
Proof.
  unfold main. destruct (pick_satellite w) as [es o]. exists es, o.
  split; [reflexivity |].
  destruct o as [[satellite nm] | | e]; cbn [bind emit app fst snd].
  - destruct (df w start_time satellite) as [table | e]; cbn [lift ret bind app].
    + reflexivity.
    + now rewrite app_nil_r.
  - reflexivity.
  - reflexivity.
Qed.

(** C1.  With the sliders on their grid and the clock in range, the
    table is built and has one row per offset [0, step, 2 step, ...]
    below [duration_minutes * 60]: the number of rows is the number of
    such offsets, and row [i] carries the timestamp of instant [i] of
    the time series. *)
Theorem C1_one_row_per_time_step w start_time satellite :
  sliders_ok w = true -> clock_ok start_time = true ->
  exists table times,
    df w start_time satellite = Ok table /\
    observation_times w start_time = Ok times /\
    nrows table = List.length times /\
    (forall k, 0 <= k ->
       (k * time_step w < duration_minutes w * 60 <-> k < Z.of_nat (nrows table))) /\
    (forall i t, nth_error times i = Some t ->
       exists s, nth_error (timestamp_column table) i = Some s /\
                 stamped (timezone (selected_tz w)) t s).
Proof.
  intros Hs Hc.
  destruct (df_total w start_time satellite Hs Hc) as [table Ed].
  destruct (df_inv _ _ _ _ Ed) as (times & stamps & Et & Hst & ->).
  eexists. exists times. split; [exact Ed | split; [exact Et |]].
  pose proof (Forall2_length Hst) as Hl.
  cbn [nrows column_length timestamp_column].
  split; [symmetry; exact Hl | split].
  - intros k Hk. rewrite <- Hl.
    pose proof Et as Et'. rewrite observation_times_spec in Et' by assumption.
    injection Et' as <-. rewrite length_map, length_seq.
    pose proof (sliders_range w Hs). apply arange_len_spec; lia.
  - intros i t Hn. exact (Forall2_nth_error _ _ _ Hst i t Hn).
Qed.




Lemma pick_satellite_shows_no_table w :
  tables_used (fst (pick_satellite w)) = [] /\
  downloads (fst (pick_satellite w)) = [] /\
  (use_custom_tle w = true -> fetches (fst (pick_satellite w)) = []).
Proof.
  unfold pick_satellite.
  destruct (use_custom_tle w).
  - destruct (EarthSatellite _ _ _); cbn; repeat split.
  - destruct (load_tle_file tle_url) as [tle_lines | e]; cbn [lift ret bind emit app].
    + destruct (selectbox _ _) as [nm |];
        [destruct (Dict.get _ nm) |]; cbn; repeat split; discriminate.
    + cbn. repeat split. discriminate.
Qed.

(** A render that completes built a table and showed it. *)
Lemma main_done_inv w start_time es :
  main w start_time = (es, Done tt) ->
  exists es0 satellite selected_satellite_name table,
    pick_satellite w = (es0, Done (satellite, selected_satellite_name)) /\
    df w start_time satellite = Ok table /\
    es = prelude ++ es0 ++ shown w start_time selected_satellite_name table /\
    tables_used es = [table; table] /\
    downloads es = [(to_csv table, file_name selected_satellite_name, "text/csv")].
Proof.
  intros Hm. destruct (main_cases w start_time) as (es0 & o & Ep & Hc).
  destruct o as [[satellite nm] | | e]; [| congruence | congruence].
  destruct (df w start_time satellite) as [table | e] eqn:Ed; [| congruence].
  rewrite Hm in Hc. injection Hc as ->.
  exists es0, satellite, nm, table.
  destruct (pick_satellite_shows_no_table w) as (T0 & D0 & _).
  rewrite Ep in T0, D0. cbn [fst] in T0, D0.
  repeat split; try assumption.
  - unfold tables_used in *. cbn [flat_map app].
    rewrite flat_map_app, T0. reflexivity.
  - unfold downloads in *. cbn [flat_map app].
    rewrite flat_map_app, D0. reflexivity.
Qed.

(** *** The table and its file *)

Lemma In_tables_used (es : list event) (table : DataFrame) :
  In (Dataframe table) es -> In table (tables_used es).
Proof.
  intros H. apply in_flat_map. exists (Dataframe table). split; [exact H | now left].
Qed.

Lemma float_cell_plain v i :
  forallb (fun x => Csv.plain (float_repr x)) v = true ->
  Csv.plain (cell_text (FloatColumn v) i) = true.
Proof.
  intros H. cbn [cell_text]. destruct (nth_error v i) as [x |] eqn:E; [| reflexivity].
  rewrite forallb_forall in H. apply H. exact (nth_error_In _ _ E).
Qed.

Lemma str_cell_plain v i :
  Forall (fun s => Csv.plain s = true) v ->
  Csv.plain (cell_text (StrColumn v) i) = true.
Proof.
  intros H. cbn [cell_text].
  destruct (nth_in_or_default i v EmptyString) as [Hin | ->]; [| reflexivity].
  rewrite Forall_forall in H. now apply H.
Qed.



(** C7.  In catalog mode a render calls the catalog loader once, for
    the one fixed address, however it ends; when that call raises, the
    render ends crashed with that exception right after the call, and
    shows nothing more. *)
Theorem C7_catalog_fetched_once_failure_uncaught w start_time :
  use_custom_tle w = false ->
  fetches (fst (main w start_time)) = [tle_url] /\
  forall e, load_tle_file tle_url = Raise e ->
    main w start_time
    = (prelude ++ [Spinner "Fetching latest satellite data..."; Fetch tle_url],
       Crashed e).
Proof.
  intros Hc.
  destruct (main_cases w start_time) as (es & o & Ep & Hm).
  destruct (pick_catalog w Hc) as (o' & Ep' & Hns & Hraise).
  rewrite Ep' in Ep. injection Ep as <- <-.
  split.
  - destruct o' as [[satellite nm] | | e]; [| congruence |].
    + destruct (df w start_time satellite); rewrite Hm; reflexivity.
    + rewrite Hm. reflexivity.
  - intros e He. rewrite (Hraise e He) in Hm. exact Hm.
Qed.

(** C8.  In a render that completes, the instants increase strictly
    along the time series and row [i] of the table is the row of
    instant [i]; the plot, the table view and the CSV export all get
    that one table, as it was built. *)
Theorem C8_rows_in_time_order_table_unchanged w start_time es :
  sliders_ok w = true ->
  main w start_time = (es, Done tt) ->
  exists satellite selected_satellite_name table times,
    df w start_time satellite = Ok table /\
    observation_times w start_time = Ok times /\
    (forall i j ti tj, (i < j)%nat ->
       nth_error times i = Some ti -> nth_error times j = Some tj -> ti < tj) /\
    Forall2 (stamped (timezone (selected_tz w))) times (timestamp_column table) /\
    float_cells table
    = map (fun t => latitude_degrees (at_subpoint satellite t)) times
      ++ map (fun t => longitude_degrees (at_subpoint satellite t)) times
      ++ map (fun t => elevation_km (at_subpoint satellite t)) times /\
    tables_used es = [table; table] /\
    downloads es = [(to_csv table, file_name selected_satellite_name, "text/csv")].
Proof.
  intros Hs Hm.
  destruct (main_done_inv _ _ _ Hm) as (es0 & sat & nm & table & _ & Ed & _ & Ht & Hl).
  destruct (df_inv _ _ _ _ Ed) as (times & stamps & Et & Hst & E).
  exists sat, nm, table, times. subst table.
  split; [exact Ed | split; [exact Et |]].
  split.
  { intros i j ti tj Hij Hi Hj.
    destruct (nth_error_times _ _ _ _ _ Hs Et Hi) as [-> _].
    destruct (nth_error_times _ _ _ _ _ Hs Et Hj) as [-> _].
    pose proof (sliders_range w Hs). nia. }
  split; [exact Hst |].
  split; [cbn; now rewrite app_nil_r |].
  split; assumption.
Qed.

End Properties.

(** * The page on concrete inputs *)

Abbreviation sample_df := (df Sample.at_subpoint).

Abbreviation sample_main load :=
  (main Sample.EarthSatellite load Sample.name Sample.at_subpoint
        Sample.float_repr).

Abbreviation table_of r := (match r with Ok t => t | Raise _ => nil end).

Abbreviation utc_table :=
  (table_of (sample_df Sample.custom_widgets Sample.noon Sample.iss)).

Abbreviation kolkata_table :=
  (table_of (sample_df Sample.catalog_widgets Sample.noon Sample.iss)).

Abbreviation sample_times :=
  (table_of (observation_times Sample.custom_widgets Sample.noon)).

Lemma C1_witness :
  sliders_ok Sample.custom_widgets = true /\ clock_ok Sample.noon = true /\
  exists table,
    sample_df Sample.custom_widgets Sample.noon Sample.iss = Ok table /\
    nrows table = 15%nat.
Proof.
  split; [reflexivity | split; [reflexivity |]].
  destruct (C1_one_row_per_time_step Sample.at_subpoint
              Sample.custom_widgets Sample.noon Sample.iss eq_refl eq_refl)
    as (table & times & Ed & Et & Hn & _).
  exists table. split; [exact Ed |]. rewrite Hn.
  vm_compute in Et. injection Et as <-. reflexivity.
Defined.






Lemma C7_witness :
  use_custom_tle Sample.catalog_widgets = false /\
  fetches (fst (sample_main Sample.offline Sample.catalog_widgets Sample.noon))
  = [tle_url] /\
  snd (sample_main Sample.offline Sample.catalog_widgets Sample.noon)
  = Crashed "OSError: cannot download the catalog".
Proof.
  split; [reflexivity |].
  destruct (C7_catalog_fetched_once_failure_uncaught
              Sample.EarthSatellite Sample.offline Sample.name Sample.at_subpoint
              Sample.float_repr Sample.catalog_widgets Sample.noon eq_refl)
    as (F & H).
  split; [exact F |]. rewrite (H _ eq_refl). reflexivity.
Defined.

Lemma C8_witness :
  sliders_ok Sample.custom_widgets = true /\
  exists table,
    tables_used (fst (sample_main Sample.online Sample.custom_widgets Sample.noon))
    = [table; table] /\
    map fst (downloads
               (fst (sample_main Sample.online Sample.custom_widgets Sample.noon)))
    = [(to_csv Sample.float_repr table, "custom_sat_ground_track.csv")].
Proof.
  split; [reflexivity |].
  destruct (C8_rows_in_time_order_table_unchanged
              Sample.EarthSatellite Sample.online Sample.name Sample.at_subpoint
              Sample.float_repr Sample.custom_widgets Sample.noon
              (fst (sample_main Sample.online Sample.custom_widgets Sample.noon))
              eq_refl)
    as (sat & nm & table & times & _ & _ & _ & _ & _ & T & D).
  - vm_compute. reflexivity.
  - exists table. split; [exact T |].
    assert (N : file_name nm = "custom_sat_ground_track.csv").
    { vm_compute in D. injection D as _ N. symmetry. exact N. }
    rewrite D. cbn [map fst]. now rewrite N.
Defined.

Lemma C9_witness :
  sliders_ok Sample.custom_widgets = true /\
  exists times,
    observation_times Sample.custom_widgets Sample.noon = Ok times /\
    List.length times = 15%nat.
Proof.
  split; [reflexivity |].
  destruct (C9_offsets_are_seconds Sample.custom_widgets Sample.noon eq_refl)
    as (times & Et & L & _).
  exists times. split; [exact Et |]. rewrite L. reflexivity.
Defined.

(** With a step of 120 and a duration of 30, the second instant is two
    minutes after the first, not two hours, and the last one is 28
    minutes after the first. *)
Lemma C9_counterexample :
  exists times t0 t1 t14,
    observation_times Sample.custom_widgets Sample.noon = Ok times /\
    nth_error times 0 = Some t0 /\ nth_error times 1 = Some t1 /\
    last times 0 = t14 /\
    utc_iso t0 = "2026-11-04T12:00:00Z" /\
    utc_iso t1 = "2026-11-04T12:02:00Z" /\
    utc_iso t14 = "2026-11-04T12:28:00Z" /\
    t1 = t0 + time_step Sample.custom_widgets /\
    t1 <> t0 + time_step Sample.custom_widgets * 60.
Proof.
  do 4 eexists. split; [vm_compute; reflexivity |].
  split; [reflexivity |]. split; [reflexivity |]. split; [reflexivity |].
  repeat split; try (vm_compute; reflexivity). vm_compute. discriminate.
Qed.

Lemma C10_witness :
  sliders_ok Sample.custom_widgets = true /\
  valid_datetime Sample.noon = true /\
  exists t0,
    nth_error sample_times 0 = Some t0 /\
    utc_tuple t0 = mk_datetime 2026 11 4 12 0 0 0 /\
    dt_seconds Sample.noon - t0 = 41.
Proof.
  split; [reflexivity | split; [reflexivity |]].
  destruct (C10_first_instant_is_minute_start
              Sample.custom_widgets Sample.noon eq_refl eq_refl)
    as (times & t0 & Et & H0 & Hu & _).
  exists t0. vm_compute in Et. injection Et as <-.
  split; [exact H0 |]. split; [exact Hu |].
  vm_compute in H0. injection H0 as <-. reflexivity.
Defined.

(** * More of the page *)

(** ** Dictionaries *)

Lemma dict_get_set_same {V} (d : list (string * V)) k v :
  Dict.get (Dict.set d k v) k = Some v.
Proof.
  induction d as [|[k' v'] d IH]; cbn; [now rewrite String.eqb_refl |].
  destruct (String.eqb k k') eqn:E; cbn; rewrite ?String.eqb_refl, ?E; auto.
Qed.

Lemma dict_get_set_other {V} (d : list (string * V)) k v k' :
  k <> k' -> Dict.get (Dict.set d k v) k' = Dict.get d k'.
Proof.
  intros Hne. induction d as [|[k0 v0] d IH]; cbn.
  - destruct (String.eqb_spec k' k); [congruence | reflexivity].
  - destruct (String.eqb_spec k k0) as [-> | Hk]; cbn.
    + destruct (String.eqb_spec k' k0); [congruence | reflexivity].
    + destruct (String.eqb_spec k' k0); [reflexivity | exact IH].
Qed.

Lemma dict_keys_set {V} (d : list (string * V)) k v k' :
  In k' (Dict.keys (Dict.set d k v)) <-> k' = k \/ In k' (Dict.keys d).
Proof.
  unfold Dict.keys. induction d as [|[k0 v0] d IH]; cbn.
  - intuition.
  - destruct (String.eqb_spec k k0) as [-> | Hk]; cbn; [intuition |].
    rewrite IH. intuition.
Qed.

Lemma dict_keys_set_nodup {V} (d : list (string * V)) k v :
  NoDup (Dict.keys d) -> NoDup (Dict.keys (Dict.set d k v)).
Proof.
  unfold Dict.keys. induction d as [|[k0 v0] d IH]; cbn; intros H.
  - constructor; [intros [] | constructor].
  - inversion H as [|? ? Hn Hd]; subst.
    destruct (String.eqb_spec k k0) as [-> | Hk]; cbn; [now constructor |].
    constructor; [| now apply IH].
    intros Hin. apply (dict_keys_set d k v k0) in Hin.
    destruct Hin as [-> | Hin]; [congruence | contradiction].
Qed.

Lemma dict_get_in_keys {V} (d : list (string * V)) k :
  In k (Dict.keys d) <-> exists v, Dict.get d k = Some v.
Proof.
  unfold Dict.keys. induction d as [|[k0 v0] d IH]; cbn.
  - split; [intros [] | intros [v Hv]; discriminate].
  - destruct (String.eqb_spec k k0) as [-> | Hk].
    + split; [intros _; now exists v0 | now left].
    + rewrite <- IH. split; [intros [E | H]; [congruence | exact H] | now right].
Qed.

(** ** The dictionary of the catalog *)

Section ByName.

Context {Satellite : Type} (sat_name : Satellite -> string).

Local Abbreviation by_name := (by_name sat_name).

Lemma by_name_snoc tle_lines sat :
  by_name (tle_lines ++ [sat]) = Dict.set (by_name tle_lines) (sat_name sat) sat.
Proof. unfold by_name. now rewrite fold_left_app. Qed.

Lemma by_name_nodup tle_lines : NoDup (Dict.keys (by_name tle_lines)).
Proof.
  induction tle_lines as [|sat tle_lines IH] using rev_ind; [constructor |].
  rewrite by_name_snoc. now apply dict_keys_set_nodup.
Qed.

Lemma by_name_keys tle_lines n :
  In n (Dict.keys (by_name tle_lines))
  <-> exists sat, In sat tle_lines /\ sat_name sat = n.
Proof.
  induction tle_lines as [|sat tle_lines IH] using rev_ind.
  - cbn. split; [intros [] | intros (s & [] & _)].
  - rewrite by_name_snoc, dict_keys_set, IH. split.
    + intros [-> | (s & Hs & E)].
      * exists sat. split; [apply in_or_app; right; now left | reflexivity].
      * exists s. split; [apply in_or_app; now left | exact E].
    + intros (s & Hs & E). apply in_app_or in Hs.
      destruct Hs as [Hs | [-> | []]]; [right; now exists s | left; now symmetry].
Qed.

(** The entry of a name is the last satellite of the catalog with that name. *)
Lemma by_name_get tle_lines n sat :
  Dict.get (by_name tle_lines) n = Some sat ->
  sat_name sat = n /\
  exists before after,
    tle_lines = before ++ sat :: after /\
    forall s, In s after -> sat_name s <> n.
Proof.
  revert sat. induction tle_lines as [|x tle_lines IH] using rev_ind; intros sat H.
  - discriminate.
  - rewrite by_name_snoc in H.
    destruct (String.eqb_spec (sat_name x) n) as [E | Hne].
    + rewrite E, dict_get_set_same in H. injection H as <-.
      split; [exact E |]. exists tle_lines, []. split; [reflexivity | intros s []].
    + rewrite dict_get_set_other in H by exact Hne.
      destruct (IH sat H) as (E & before & after & -> & Hafter).
      split; [exact E |]. exists before, (after ++ [x]).
      split; [now rewrite <- app_assoc |].
      intros s Hs. apply in_app_or in Hs.
      destruct Hs as [Hs | [<- | []]]; [now apply Hafter | exact Hne].
Qed.

End ByName.

(** ** Sorting *)

Lemma insert_sorted_perm x xs : Permutation (insert_sorted x xs) (x :: xs).
Proof.
  induction xs as [|y xs IH]; cbn; [reflexivity |].
  destruct (String.leb x y); [reflexivity |].
  rewrite IH. apply perm_swap.
Qed.

Lemma sorted_perm xs : Permutation (sorted xs) xs.
Proof.
  induction xs as [|x xs IH]; cbn; [reflexivity |].
  fold (sorted xs). rewrite insert_sorted_perm. now constructor.
Qed.

Lemma insert_sorted_hd x y xs :
  ascending y x -> HdRel ascending y xs -> HdRel ascending y (insert_sorted x xs).
Proof.
  intros Hyx H. destruct xs as [|z xs]; cbn; [now constructor |].
  destruct (String.leb x z); constructor; [exact Hyx | now inversion H].
Qed.

Lemma insert_sorted_sorted x xs :
  Sorted ascending xs -> Sorted ascending (insert_sorted x xs).
Proof.
  induction 1 as [|y xs Hs IH Hd]; cbn; [repeat constructor |].
  destruct (String.leb x y) eqn:E.
  - constructor; [now constructor | now constructor].
  - constructor; [exact IH |]. apply insert_sorted_hd; [| exact Hd].
    destruct (String.leb_total x y) as [H | H]; [congruence | exact H].
Qed.

Lemma sorted_sorted xs : Sorted ascending (sorted xs).
Proof.
  induction xs as [|x xs IH]; cbn; [constructor |].
  now apply insert_sorted_sorted.
Qed.

(** ** The file name *)

Lemma lower_char_of_space : lower_char " " = " "%char.
Proof. reflexivity. Qed.

Lemma lower_replace_char c :
  lower_char (if Ascii.eqb c " " then "_"%char else c)
  = (if Ascii.eqb (lower_char c) " " then "_"%char else lower_char c).
Proof.
  destruct (Ascii.eqb_spec c " ") as [-> | Hc]; [reflexivity |].
  destruct (Ascii.eqb_spec (lower_char c) " ") as [E | _]; [| reflexivity].
  apply lower_char_space in E. contradiction.
Qed.

Lemma lower_replace_commute s :
  lower (replace " " "_" s) = replace " " "_" (lower s).
Proof.
  induction s as [|c s IH]; [reflexivity |].
  cbn [replace lower]. now rewrite IH, lower_replace_char.
Qed.

Lemma lower_idempotent s : lower (lower s) = lower s.
Proof.
  induction s as [|c s IH]; [reflexivity |].
  cbn [lower]. now rewrite IH, lower_char_idempotent.
Qed.

Lemma replace_idempotent s :
  replace " " "_" (replace " " "_" s) = replace " " "_" s.
Proof.
  induction s as [|c s IH]; [reflexivity |].
  cbn [replace]. rewrite IH. f_equal.
  destruct (Ascii.eqb_spec c " "); [reflexivity |].
  destruct (Ascii.eqb_spec c " "); [contradiction | reflexivity].
Qed.

Lemma append_length a b :
  String.length (a +++ b) = (String.length a + String.length b)%nat.
Proof. induction a as [|c a IH]; [reflexivity | cbn; now rewrite IH]. Qed.


(** ** The size of the time series *)

Lemma last_map_seq (f : nat -> Z) n d :
  (0 < n)%nat -> last (map f (seq 0 n)) d = f (n - 1)%nat.
Proof.
  intros H. destruct n as [|n]; [lia |].
  replace (S n - 1)%nat with n by lia.
  rewrite seq_S, map_app. cbn [map Nat.add]. apply last_last.
Qed.

(** X9.  The time series has between 15 and 1440 instants; they start at
    the start of the minute, stay before the end of the window of
    [duration_minutes * 60] seconds, and the last one is less than one
    step before that end. *)
Theorem time_series_covers_window w start_time times :
  sliders_ok w = true ->
  observation_times w start_time = Ok times ->
  (15 <= List.length times <= 1440)%nat /\
  nth_error times 0 = Some (minute_start start_time) /\
  minute_start start_time + duration_minutes w * 60 - time_step w
    <= last times 0
    < minute_start start_time + duration_minutes w * 60.
Proof.
  intros Hs Et. pose proof (sliders_range w Hs) as R.
  rewrite observation_times_spec in Et by exact Hs. injection Et as <-.
  set (n := arange_len (duration_minutes w * 60) (time_step w)).
  assert (Hn : forall k, 0 <= k ->
            (k * time_step w < duration_minutes w * 60 <-> k < Z.of_nat n))
    by (intros k Hk; apply arange_len_spec; lia).
  assert (H14 : 14 < Z.of_nat n) by (apply Hn; lia).
  assert (H1440 : ~ 1440 < Z.of_nat n) by (rewrite <- Hn by lia; lia).
  rewrite length_map, length_seq.
  split; [lia |]. split.
  - destruct n as [|n']; [lia |]. cbn. f_equal. lia.
  - rewrite last_map_seq by lia.
    assert (Hlast : Z.of_nat (n - 1) * time_step w < duration_minutes w * 60)
      by (apply Hn; lia).
    assert (Hend : ~ Z.of_nat n * time_step w < duration_minutes w * 60)
      by (rewrite Hn by lia; lia).
    replace (Z.of_nat n) with (Z.of_nat (n - 1) + 1) in Hend by lia.
    lia.
Qed.

(** ** The width of a timestamp *)

Lemma strftime_length dt : printable dt -> String.length (strftime dt) = 19%nat.
Proof.
  intros P. destruct (printable_ranges _ P) as (Hy & Hm & Hd & Hh & Hmi & Hs).
  unfold strftime. rewrite zfill4_spec, !zfill2_spec by assumption.
  reflexivity.
Qed.

Lemma stamped_width tz t s :
  stamped tz t s -> String.length s = 19%nat /\ Csv.field s = s.
Proof.
  intros H. pose proof (stamped_plain _ _ _ H) as Hp.
  destruct H as (lt & E & ->). split.
  - apply strftime_length. exact (local_time_printable _ _ _ E).
  - unfold Csv.field. now rewrite Hp.
Qed.

Lemma strftime_split dt :
  strftime dt
  = (zfill 4 (year dt) +++ "-" +++ zfill 2 (month dt) +++ "-" +++ zfill 2 (day dt)
     +++ " " +++ zfill 2 (hour dt) +++ ":" +++ zfill 2 (minute dt) +++ ":")
    +++ zfill 2 (second dt).
Proof. unfold strftime. now rewrite !append_assoc. Qed.

(** ** Catalog and typed lines *)

Section MoreOfThePage.

Context {Satellite float : Type}
  (EarthSatellite : string -> string -> string -> result Satellite)
  (load_tle_file : string -> result (list Satellite))
  (sat_name : Satellite -> string)
  (at_subpoint : Satellite -> Time -> GeographicPosition float)
  (float_repr : float -> string).

Set Default Proof Using "Type".

Local Abbreviation DataFrame := (DataFrame float).
Local Abbreviation event := (event float).
Local Abbreviation to_csv := (@to_csv float float_repr).
Local Abbreviation shown := (@shown float float_repr).
Local Abbreviation pick_satellite :=
  (@pick_satellite Satellite float EarthSatellite load_tle_file sat_name).
Local Abbreviation observe := (@observe Satellite float at_subpoint).
Local Abbreviation df := (@df Satellite float at_subpoint).
Local Abbreviation main_with load :=
  (@main Satellite float EarthSatellite load sat_name at_subpoint float_repr).
Local Abbreviation main := (main_with load_tle_file).
Local Abbreviation by_name := (by_name sat_name).
Local Abbreviation satellite_names := (satellite_names sat_name).

(** *** The catalog *)

(** X5.  The names offered for selection are in ascending order, hold no
    name twice, and are exactly the names of the satellites of the
    catalog. *)
Theorem satellite_names_sorted_distinct (tle_lines : list Satellite) :
  Sorted ascending (satellite_names tle_lines) /\
  NoDup (satellite_names tle_lines) /\
  forall n, In n (satellite_names tle_lines)
            <-> exists sat, In sat tle_lines /\ sat_name sat = n.
Proof.
  unfold satellite_names. split; [apply sorted_sorted |]. split.
  - apply (Permutation_NoDup (Permutation_sym (sorted_perm _))).
    apply by_name_nodup.
  - intros n. rewrite <- by_name_keys. split; apply Permutation_in.
    + apply sorted_perm.
    + apply Permutation_sym, sorted_perm.
Qed.

Lemma pick_catalog_loaded w tle_lines :
  use_custom_tle w = false ->
  load_tle_file tle_url = Ok tle_lines ->
  pick_satellite w
  = ([Spinner "Fetching latest satellite data..."; Fetch tle_url],
     match selectbox (satellite_names tle_lines) (satellite_choice w) with
     | Some n =>
         match Dict.get (by_name tle_lines) n with
         | Some satellite => Done (satellite, n)
         | None => Crashed "KeyError"
         end
     | None => Crashed "KeyError: None"
     end).
Proof.
  intros Hc Hl. unfold pick_satellite. rewrite Hc, Hl.
  cbn [lift ret bind emit app].
  fold (by_name tle_lines). fold (satellite_names tle_lines).
  destruct (selectbox _ _) as [n |]; [| reflexivity].
  destruct (Dict.get _ n); reflexivity.
Qed.

(** X4.  When the catalog that was loaded holds no satellite, the render
    crashes with the [KeyError] of the lookup, right after the fetch. *)
Theorem empty_catalog_crashes w start_time :
  use_custom_tle w = false ->
  load_tle_file tle_url = Ok [] ->
  main w start_time
  = (prelude ++ [Spinner "Fetching latest satellite data..."; Fetch tle_url],
     Crashed "KeyError: None").
Proof.
  intros Hc Hl.
  destruct (main_cases EarthSatellite load_tle_file sat_name at_subpoint float_repr
              w start_time) as (es & o & Ep & Hm).
  rewrite (pick_catalog_loaded w [] Hc Hl) in Ep.
  replace (selectbox (satellite_names []) (satellite_choice w)) with (@None string)
    in Ep by (destruct (satellite_choice w); reflexivity).
  injection Ep as <- <-. exact Hm.
Qed.

(** X6.  When the catalog was loaded and a name of the list is picked,
    the render completes; the satellite it tracks carries the picked
    name and is the last one of the catalog with that name. *)
Theorem catalog_render_completes w start_time tle_lines n :
  use_custom_tle w = false ->
  sliders_ok w = true -> clock_ok start_time = true ->
  load_tle_file tle_url = Ok tle_lines ->
  nth_error (satellite_names tle_lines) (satellite_choice w) = Some n ->
  exists satellite table,
    sat_name satellite = n /\
    (exists before after,
       tle_lines = before ++ satellite :: after /\
       forall s, In s after -> sat_name s <> n) /\
    df w start_time satellite = Ok table /\
    main w start_time
    = (prelude
       ++ [Spinner "Fetching latest satellite data..."; Fetch tle_url]
       ++ shown w start_time n table, Done tt).
Proof.
  intros Hc Hs Hk Hl Hn.
  assert (Hin : In n (Dict.keys (by_name tle_lines))).
  { apply (Permutation_in _ (sorted_perm _)). exact (nth_error_In _ _ Hn). }
  apply dict_get_in_keys in Hin. destruct Hin as [satellite Hg].
  destruct (by_name_get sat_name _ _ _ Hg) as (En & Hlast).
  destruct (df_total at_subpoint w start_time satellite Hs Hk) as [table Ed].
  exists satellite, table. split; [exact En | split; [exact Hlast |]].
  split; [exact Ed |].
  destruct (main_cases EarthSatellite load_tle_file sat_name at_subpoint float_repr
              w start_time) as (es & o & Ep & Hm).
  rewrite (pick_catalog_loaded w tle_lines Hc Hl) in Ep.
  unfold selectbox in Ep. rewrite Hn, Hg in Ep. injection Ep as <- <-.
  rewrite Ed in Hm. exact Hm.
Qed.

(** *** Typed lines *)

(** X2.  With typed lines, sliders on their grid and the clock in range,
    a render never crashes: it stops at the sidebar error when the
    constructor rejects the lines, and completes when it accepts them. *)
Theorem custom_render_never_crashes w start_time :
  use_custom_tle w = true ->
  sliders_ok w = true -> clock_ok start_time = true ->
  (exists e,
     EarthSatellite (tle_line1 w) (tle_line2 w) (tle_name w) = Raise e /\
     snd (main w start_time) = Stopped) \/
  (exists satellite table,
     EarthSatellite (tle_line1 w) (tle_line2 w) (tle_name w) = Ok satellite /\
     df w start_time satellite = Ok table /\
     main w start_time
     = (prelude
        ++ [SidebarMarkdown "Enter your custom Two-Line Element (TLE) data:"]
        ++ shown w start_time (tle_name w) table, Done tt)).
Proof.
  intros Hc Hs Hk.
  destruct (main_cases EarthSatellite load_tle_file sat_name at_subpoint float_repr
              w start_time) as (es & o & Ep & Hm).
  destruct (EarthSatellite (tle_line1 w) (tle_line2 w) (tle_name w))
    as [satellite | e] eqn:E.
  - right.
    rewrite (pick_custom_ok EarthSatellite load_tle_file sat_name w satellite Hc E) in Ep.
    injection Ep as <- <-.
    destruct (df_total at_subpoint w start_time satellite Hs Hk) as [table Ed].
    exists satellite, table. rewrite Ed in Hm. repeat split; assumption.
  - left. exists e. split; [reflexivity |].
    rewrite (pick_custom_raise EarthSatellite load_tle_file sat_name w e Hc E) in Ep.
    injection Ep as <- <-. now rewrite Hm.
Qed.

(** X3.  With typed lines a render never fetches the catalog, and what it
    shows does not depend on what a fetch would have returned. *)
Theorem custom_render_ignores_catalog w start_time
    (other : string -> result (list Satellite)) :
  use_custom_tle w = true ->
  fetches (fst (main w start_time)) = [] /\
  main_with other w start_time = main w start_time.
Proof.
  intros Hc. split.
  - destruct (main_cases EarthSatellite load_tle_file sat_name at_subpoint float_repr
                w start_time) as (es & o & Ep & Hm).
    destruct (pick_satellite_shows_no_table (float := float)
              EarthSatellite load_tle_file sat_name w)
      as (_ & _ & F).
    specialize (F Hc). rewrite Ep in F. cbn [fst] in F.
    destruct o as [[satellite nm] | | e];
      [destruct (df w start_time satellite) |..]; rewrite Hm; cbn [fst];
      unfold fetches in *; rewrite ?flat_map_app, F; reflexivity.
  - unfold main, pick_satellite. now rewrite Hc.
Qed.

(** *** What a render shows *)

(** X7.  A render shows the plot, the table and the download together or
    not at all: when it completes, both views get one table and the
    download is its CSV text; when it stops or crashes, it has shown no
    table, no plot and no download. *)
Theorem render_shows_all_or_nothing w start_time :
  (exists table selected_satellite_name,
     snd (main w start_time) = Done tt /\
     tables_used (fst (main w start_time)) = [table; table] /\
     downloads (fst (main w start_time))
     = [(to_csv table, file_name selected_satellite_name, "text/csv")]) \/
  (snd (main w start_time) <> Done tt /\
   tables_used (fst (main w start_time)) = [] /\
   downloads (fst (main w start_time)) = []).
Proof.
  destruct (main_cases EarthSatellite load_tle_file sat_name at_subpoint float_repr
              w start_time) as (es & o & Ep & Hm).
  destruct (pick_satellite_shows_no_table (float := float)
              EarthSatellite load_tle_file sat_name w)
    as (T & D & _).
  rewrite Ep in T, D. cbn [fst] in T, D.
  destruct o as [[satellite nm] | | e].
  - destruct (df w start_time satellite) as [table | e].
    + left. exists table, nm. rewrite Hm. cbn [fst snd].
      split; [reflexivity |].
      unfold tables_used, downloads in *. rewrite !flat_map_app, T, D.
      split; reflexivity.
    + right. rewrite Hm. cbn [fst snd]. split; [discriminate |].
      unfold tables_used, downloads in *. rewrite !flat_map_app, T, D.
      split; reflexivity.
  - right. rewrite Hm. cbn [fst snd]. split; [discriminate |].
    unfold tables_used, downloads in *. rewrite !flat_map_app, T, D.
    split; reflexivity.
  - right. rewrite Hm. cbn [fst snd]. split; [discriminate |].
    unfold tables_used, downloads in *. rewrite !flat_map_app, T, D.
    split; reflexivity.
Qed.

End MoreOfThePage.

(** ** The loop and the table *)

Section MoreOfTheTable.

Context {Satellite float : Type}
  (at_subpoint : Satellite -> Time -> GeographicPosition float)
  (float_repr : float -> string).

Set Default Proof Using "Type".

Local Abbreviation DataFrame := (DataFrame float).
Local Abbreviation to_csv := (@to_csv float float_repr).
Local Abbreviation observe := (@observe Satellite float at_subpoint).
Local Abbreviation df := (@df Satellite float at_subpoint).

(** X1.  The four lists of the loop grow together: after the loop each
    holds one element per instant, so building the table never fails
    on their lengths, and [df] raises only what the time series or the
    loop raised. *)
Theorem loop_lists_stay_aligned w start_time satellite :
  (forall tz times k,
     observe satellite tz times = Ok k ->
     List.length (lats k) = List.length times /\
     List.length (lons k) = List.length times /\
     List.length (altitudes k) = List.length times /\
     List.length (timestamps k) = List.length times /\
     exists table, df_of_track k = Ok table /\ nrows table = List.length times) /\
  (forall e,
     df w start_time satellite = Raise e ->
     observation_times w start_time = Raise e \/
     exists times,
       observation_times w start_time = Ok times /\
       observe satellite (timezone (selected_tz w)) times = Raise e).
Proof.
  assert (A : forall tz times k,
     observe satellite tz times = Ok k ->
     List.length (lats k) = List.length times /\
     List.length (lons k) = List.length times /\
     List.length (altitudes k) = List.length times /\
     List.length (timestamps k) = List.length times /\
     exists table, df_of_track k = Ok table /\ nrows table = List.length times).
  { intros tz times k H.
    destruct (observe_inv at_subpoint _ _ _ _ H) as (E1 & E2 & E3 & E4).
    apply Forall2_length in E4.
    assert (L1 : List.length (lats k) = List.length times) by (now rewrite E1, length_map).
    assert (L2 : List.length (lons k) = List.length times) by (now rewrite E2, length_map).
    assert (L3 : List.length (altitudes k) = List.length times) by (now rewrite E3, length_map).
    repeat (split; [congruence |]).
    unfold df_of_track, pd_DataFrame. cbn [forallb snd column_length].
    rewrite L1, L2, L3, <- E4, Nat.eqb_refl. cbn [andb].
    eexists. split; [reflexivity |]. cbn [nrows column_length]. congruence. }
  split; [exact A |].
  intros e H. unfold df in H.
  destruct (observation_times w start_time) as [times | e0]; cbn [rbind] in H.
  - right. exists times. split; [reflexivity |].
    fold (observe satellite (timezone (selected_tz w)) times) in H.
    destruct (observe satellite (timezone (selected_tz w)) times) as [k | e1] eqn:E;
      cbn [rbind] in H.
    + destruct (A _ _ _ E) as (_ & _ & _ & _ & table & Et & _). congruence.
    + congruence.
  - left. congruence.
Qed.

(** X8.  The display zone changes the Timestamp column only: two
    renders with the same sliders, clock and satellite build tables
    with the same number of rows and the same latitude, longitude and
    altitude columns, whatever their zones. *)
Theorem timezone_changes_only_timestamps w w' start_time satellite table table' :
  duration_minutes w = duration_minutes w' ->
  time_step w = time_step w' ->
  df w start_time satellite = Ok table ->
  df w' start_time satellite = Ok table' ->
  nrows table = nrows table' /\
  columns table = columns table' /\
  tl table = tl table'.
Proof.
  intros Hd Hs E E'.
  destruct (df_inv at_subpoint _ _ _ _ E) as (times & stamps & Et & Hst & ->).
  destruct (df_inv at_subpoint _ _ _ _ E') as (times' & stamps' & Et' & Hst' & ->).
  assert (times = times') as <-.
  { unfold observation_times, minutes in Et, Et'. rewrite <- Hd, <- Hs in Et'.
    congruence. }
  apply Forall2_length in Hst, Hst'. cbn [nrows column_length columns map fst tl].
  repeat split. congruence.
Qed.


(** X12.  Shown in UTC, the first row carries the clock's date, hour and
    minute with seconds 00: it agrees with the start time of the info
    text on the first 17 characters. *)
Theorem first_row_is_start_minute w start_time satellite table :
  selected_tz w = UTC ->
  sliders_ok w = true -> clock_ok start_time = true ->
  df w start_time satellite = Ok table ->
  exists prefix,
    String.length prefix = 17%nat /\
    strftime start_time = prefix +++ zfill 2 (second start_time) /\
    nth_error (timestamp_column table) 0 = Some (prefix +++ "00").
Proof.
  intros Hz Hs Hc E.
  destruct (df_inv at_subpoint _ _ _ _ E) as (times & stamps & Et & Hst & ->).
  destruct (time_series_covers_window w start_time times Hs Et) as (_ & H0 & _).
  destruct (Forall2_nth_error _ _ _ Hst 0%nat _ H0) as (s & Hs0 & St).
  destruct (stamped_in_window _ _ _ _ _ Hs Hc Et (nth_error_In _ _ H0) St) as [_ ->].
  rewrite Hz, utcoffset_UTC, Z.add_0_r in *.
  set (dt0 := mk_datetime (year start_time) (month start_time) (day start_time)
                (hour start_time) (minute start_time) 0 0).
  assert (V : valid_datetime start_time = true).
  { unfold clock_ok in Hc. apply andb_true_iff in Hc. destruct Hc as [Hc _].
    apply andb_true_iff in Hc. tauto. }
  pose proof (valid_printable _ V) as P.
  assert (P0 : printable dt0).
  { destruct P as ((Vd & Hh & Hm & _) & Hy). repeat split; cbn; try apply Vd; lia. }
  assert (E0 : dt_of_seconds (minute_start start_time) 0 = dt0).
  { replace (minute_start start_time) with (dt_seconds dt0)
      by (unfold minute_start, dt_seconds, toordinal; cbn; lia).
    exact (dt_of_seconds_inv dt0 (proj1 P0)). }
  rewrite E0 in Hs0.
  exists (zfill 4 (year start_time) +++ "-" +++ zfill 2 (month start_time) +++ "-"
          +++ zfill 2 (day start_time) +++ " " +++ zfill 2 (hour start_time) +++ ":"
          +++ zfill 2 (minute start_time) +++ ":").
  split; [| split].
  - destruct (printable_ranges _ P) as (Hy & Hm & Hd & Hh & Hmi & _).
    rewrite zfill4_spec, !zfill2_spec by assumption. reflexivity.
  - apply strftime_split.
  - cbn [timestamp_column]. rewrite Hs0, (strftime_split dt0). reflexivity.
Qed.

End MoreOfTheTable.

(** ** On concrete inputs *)

Abbreviation london_table :=
  (table_of (sample_df Sample.london_widgets Sample.noon Sample.iss)).

Lemma custom_render_never_crashes_witness :
  use_custom_tle Sample.custom_widgets = true /\
  sliders_ok Sample.custom_widgets = true /\ clock_ok Sample.noon = true /\
  snd (sample_main Sample.online Sample.custom_widgets Sample.noon) = Done tt.
Proof.
  split; [reflexivity | split; [reflexivity | split; [reflexivity |]]].
  destruct (custom_render_never_crashes Sample.EarthSatellite Sample.online
              Sample.name Sample.at_subpoint Sample.float_repr
              Sample.custom_widgets Sample.noon eq_refl eq_refl eq_refl)
    as [(e & E & _) | (sat & table & _ & _ & M)].
  - vm_compute in E. discriminate.
  - rewrite M. reflexivity.
Defined.

Lemma custom_render_ignores_catalog_witness :
  use_custom_tle Sample.custom_widgets = true /\
  fetches (fst (sample_main Sample.offline Sample.custom_widgets Sample.noon)) = [] /\
  sample_main Sample.online Sample.custom_widgets Sample.noon
  = sample_main Sample.offline Sample.custom_widgets Sample.noon.
Proof.
  split; [reflexivity |].
  exact (custom_render_ignores_catalog Sample.EarthSatellite Sample.offline
           Sample.name Sample.at_subpoint Sample.float_repr
           Sample.custom_widgets Sample.noon Sample.online eq_refl).
Defined.

Lemma empty_catalog_crashes_witness :
  use_custom_tle Sample.catalog_widgets = false /\
  Sample.empty tle_url = Ok [] /\
  snd (sample_main Sample.empty Sample.catalog_widgets Sample.noon)
  = Crashed "KeyError: None".
Proof.
  split; [reflexivity | split; [reflexivity |]].
  rewrite (empty_catalog_crashes Sample.EarthSatellite Sample.empty
             Sample.name Sample.at_subpoint Sample.float_repr
             Sample.catalog_widgets Sample.noon eq_refl eq_refl).
  reflexivity.
Defined.

(** The catalog lists ISS (ZARYA) first and last; the render tracks the
    last entry. *)
Lemma catalog_render_completes_witness :
  use_custom_tle Sample.catalog_widgets = false /\
  sliders_ok Sample.catalog_widgets = true /\ clock_ok Sample.noon = true /\
  exists satellite,
    Sample.name satellite = "ISS (ZARYA)" /\
    Sample.line2 satellite = Sample.iss_line1 /\
    snd (sample_main Sample.twice Sample.catalog_widgets Sample.noon) = Done tt.
Proof.
  split; [reflexivity | split; [reflexivity | split; [reflexivity |]]].
  destruct (catalog_render_completes Sample.EarthSatellite Sample.twice
              Sample.name Sample.at_subpoint Sample.float_repr
              Sample.catalog_widgets Sample.noon
              [ Sample.mk_satellite "ISS (ZARYA)" Sample.iss_line1 Sample.iss_line2;
                Sample.mk_satellite "CSS (TIANHE)" Sample.iss_line1 Sample.iss_line2;
                Sample.mk_satellite "ISS (ZARYA)" Sample.iss_line1 Sample.iss_line1 ]
              "ISS (ZARYA)" eq_refl eq_refl eq_refl eq_refl eq_refl)
    as (sat & table & En & (before & after & Eq & Hafter) & _ & M).
  exists sat. split; [exact En |]. split; [| rewrite M; reflexivity].
  destruct before as [|x [|y [|z before]]]; cbn in Eq.
  - injection Eq as _ <-. exfalso.
    apply (Hafter (Sample.mk_satellite "ISS (ZARYA)" Sample.iss_line1 Sample.iss_line1));
      [right; left; reflexivity | reflexivity].
  - injection Eq as _ <- _. discriminate En.
  - injection Eq as _ _ <- _. reflexivity.
  - injection Eq as _ _ _ Eq. destruct before; discriminate Eq.
Defined.

Lemma timezone_changes_only_timestamps_witness :
  tl utc_table = tl london_table /\ nrows utc_table = nrows london_table.
Proof.
  destruct (timezone_changes_only_timestamps Sample.at_subpoint
              Sample.custom_widgets Sample.london_widgets Sample.noon Sample.iss
              utc_table london_table) as (N & _ & T).
  - reflexivity.
  - reflexivity.
  - vm_compute. reflexivity.
  - vm_compute. reflexivity.
  - split; [exact T | exact N].
Defined.

Lemma time_series_covers_window_witness :
  sliders_ok Sample.custom_widgets = true /\
  (15 <= List.length sample_times <= 1440)%nat /\
  nth_error sample_times 0 = Some (minute_start Sample.noon) /\
  minute_start Sample.noon + 30 * 60 - 120
    <= last sample_times 0
    < minute_start Sample.noon + 30 * 60.
Proof.
  split; [reflexivity |].
  apply (time_series_covers_window Sample.custom_widgets Sample.noon sample_times).
  - reflexivity.
  - vm_compute. reflexivity.
Defined.


Lemma first_row_is_start_minute_witness :
  selected_tz Sample.custom_widgets = UTC /\
  sliders_ok Sample.custom_widgets = true /\ clock_ok Sample.noon = true /\
  exists prefix,
    String.length prefix = 17%nat /\
    strftime Sample.noon = prefix +++ zfill 2 (second Sample.noon) /\
    nth_error (timestamp_column utc_table) 0 = Some (prefix +++ "00").
Proof.
  split; [reflexivity | split; [reflexivity | split; [reflexivity |]]].
  apply (first_row_is_start_minute Sample.at_subpoint
           Sample.custom_widgets Sample.noon Sample.iss utc_table);
    vm_compute; reflexivity.
Defined.
